(** * GlossonPharmacy: the gateway, the inventory ledger and the sale processor

    A shallow embedding of [GlossonPharmacy.py].  The file has three layers,
    as the program has:

    - the values, exceptions and string operations of Python the program
      uses ([Py]);
    - [DatabaseManager.execute_query], written over the interface of the
      database driver (psycopg2) as a state-and-exception monad on a [world]
      (the connection, the clock, and a trace of the calls made to the
      driver and to the UI);
    - [InventoryManager] and [SalesManager], written as programs whose
      primitive steps are the calls [self.db_manager.execute_query(...)],
      [st.error(...)], [st.success(...)] and [datetime.now()]; they are run
      sequentially by [run], and interleaved by [Concurrent.step].

    The PostgreSQL server is outside the program.  [Pg] gives the six
    statements the program issues their SQL meaning over a two-table store
    and leaves every other statement to a parameter. *)

From stdpp Require Import base option list strings gmap.
From Stdlib Require Import ZArith Ascii String Lia.

Set Warnings "-register-all".
Local Open Scope string_scope.
Local Open Scope list_scope.
Local Open Scope Z_scope.

(** ** Python values and operations *)

Module Py.

(** [decimal.Decimal], finite values only: coefficient times ten to the
    exponent.  NaN, the infinities and the negative zero are not
    represented. *)
Record decimal := Decimal { coefficient : Z; exponent : Z }.

(** The Python objects that travel between the program, the driver and the
    UI.  A row of a result set is a [VTuple]; a result set is a [VList] of
    rows.  A [datetime] is kept as an abstract instant. *)
Inductive value :=
| VNone
| VInt (n : Z)
| VDecimal (d : decimal)
| VStr (s : string)
| VDatetime (t : Z)
| VTuple (items : list value)
| VList (items : list value).

(** The exceptions that can occur.  [Psycopg2Error] stands for
    [psycopg2.Error] and all its subclasses: the only class the program
    catches. *)
Inductive exn :=
| Psycopg2Error (msg : string)
| AttributeError (msg : string)
| TypeError (msg : string)
| IndexError (msg : string).

Definition is_psycopg2_Error (e : exn) : bool :=
  match e with Psycopg2Error _ => true | _ => false end.

Inductive outcome (A : Type) :=
| Ok (a : A)
| Raise (e : exn).
Arguments Ok {A} a.
Arguments Raise {A} e.

(** *** Strings: [str.startswith], [str.strip], [str.upper]

    Strings are sequences of ASCII characters. *)

Definition startswith (s pre : string) : bool := String.prefix pre s.

(** [c.isspace()] on the ASCII range: TAB, LF, VT, FF, CR, FS, GS, RS, US
    and the space. *)
Definition isspace (c : ascii) : bool :=
  let n := Z.of_nat (nat_of_ascii c) in
  ((9 <=? n) && (n <=? 13)) || ((28 <=? n) && (n <=? 32)).

Fixpoint lstrip (s : string) : string :=
  match s with
  | String c t => if isspace c then lstrip t else s
  | EmptyString => EmptyString
  end.

Fixpoint rstrip (s : string) : string :=
  match s with
  | String c t =>
      match rstrip t with
      | EmptyString => if isspace c then EmptyString else String c EmptyString
      | t' => String c t'
      end
  | EmptyString => EmptyString
  end.

Definition strip (s : string) : string := rstrip (lstrip s).

Definition upper_ascii (c : ascii) : ascii :=
  let n := nat_of_ascii c in
  if ((97 <=? n) && (n <=? 122))%nat then ascii_of_nat (n - 32) else c.

Fixpoint upper (s : string) : string :=
  match s with
  | String c t => String (upper_ascii c) (upper t)
  | EmptyString => EmptyString
  end.

(** *** Truth value and subscript *)

(** [bool(v)], as [if v:] and [v if w else u] test it. *)
Definition truthy (v : value) : bool :=
  match v with
  | VNone => false
  | VInt n => negb (n =? 0)
  | VDecimal d => negb (coefficient d =? 0)
  | VStr s => negb (String.eqb s "")
  | VDatetime _ => true
  | VTuple l | VList l => match l with [] => false | _ => true end
  end.

(** [v[i]] for an integer [i]; a negative index counts from the end. *)
Definition getitem (v : value) (i : Z) : outcome value :=
  match v with
  | VTuple l | VList l =>
      let n := Z.of_nat (List.length l) in
      let j := if i <? 0 then i + n else i in
      if (0 <=? j) && (j <? n)
      then match l !! Z.to_nat j with
           | Some x => Ok x
           | None => Raise (IndexError "index out of range")
           end
      else Raise (IndexError "index out of range")
  | VStr s =>
      let n := Z.of_nat (String.length s) in
      let j := if i <? 0 then i + n else i in
      if (0 <=? j) && (j <? n)
      then match String.get (Z.to_nat j) s with
           | Some c => Ok (VStr (String c EmptyString))
           | None => Raise (IndexError "string index out of range")
           end
      else Raise (IndexError "string index out of range")
  | _ => Raise (TypeError "object is not subscriptable")
  end.

(** *** Arithmetic of [int] and [Decimal]

    The default context of the [decimal] module: 28 significant digits,
    ROUND_HALF_EVEN.  An operation computes the exact result and rounds it to
    the context. *)

Definition prec : Z := 28.

(** The number of decimal digits of [n > 0], counted with [fuel] steps. *)
Fixpoint ndigits_aux (fuel : nat) (n : Z) : Z :=
  match fuel with
  | O => 0
  | S fuel' => if n <=? 0 then 0 else 1 + ndigits_aux fuel' (n / 10)
  end.

Definition ndigits (n : Z) : Z :=
  ndigits_aux (S (Z.to_nat (Z.log2 (Z.abs n)))) (Z.abs n).

Definition round_half_even (n unit : Z) : Z :=
  let q := n / unit in
  let r := n mod unit in
  if (unit <? 2 * r) || ((2 * r =? unit) && Z.odd q) then q + 1 else q.

Definition dec_round (d : decimal) : decimal :=
  let a := Z.abs (coefficient d) in
  let shift := ndigits a - prec in
  if shift <=? 0 then d
  else
    let q := round_half_even a (10 ^ shift) in
    let '(q, shift) := if q =? 10 ^ prec then (10 ^ (prec - 1), shift + 1) else (q, shift) in
    Decimal (Z.sgn (coefficient d) * q) (exponent d + shift).

Definition dec_of_int (n : Z) : decimal := Decimal n 0.

(** Both coefficients brought to the smaller exponent. *)
Definition dec_align (a b : decimal) : Z * Z * Z :=
  let e := Z.min (exponent a) (exponent b) in
  (coefficient a * 10 ^ (exponent a - e), coefficient b * 10 ^ (exponent b - e), e).

Definition dec_mul (a b : decimal) : decimal :=
  dec_round (Decimal (coefficient a * coefficient b) (exponent a + exponent b)).

Definition dec_add (a b : decimal) : decimal :=
  let '(ca, cb, e) := dec_align a b in dec_round (Decimal (ca + cb) e).

Definition dec_ltb (a b : decimal) : bool :=
  let '(ca, cb, _) := dec_align a b in ca <? cb.

Definition repeat_string (s : string) (n : Z) : string :=
  String.concat "" (replicate (Z.to_nat n) s).

(** [a * b] *)
Definition mul (a b : value) : outcome value :=
  match a, b with
  | VInt x, VInt y => Ok (VInt (x * y))
  | VDecimal x, VInt y => Ok (VDecimal (dec_mul x (dec_of_int y)))
  | VInt x, VDecimal y => Ok (VDecimal (dec_mul (dec_of_int x) y))
  | VDecimal x, VDecimal y => Ok (VDecimal (dec_mul x y))
  | VStr s, VInt n | VInt n, VStr s => Ok (VStr (repeat_string s n))
  | VTuple l, VInt n | VInt n, VTuple l =>
      Ok (VTuple (mjoin (replicate (Z.to_nat n) l)))
  | VList l, VInt n | VInt n, VList l =>
      Ok (VList (mjoin (replicate (Z.to_nat n) l)))
  | _, _ => Raise (TypeError "unsupported operand type(s) for *")
  end.

(** [a + b] *)
Definition add (a b : value) : outcome value :=
  match a, b with
  | VInt x, VInt y => Ok (VInt (x + y))
  | VDecimal x, VInt y => Ok (VDecimal (dec_add x (dec_of_int y)))
  | VInt x, VDecimal y => Ok (VDecimal (dec_add (dec_of_int x) y))
  | VDecimal x, VDecimal y => Ok (VDecimal (dec_add x y))
  | VStr s, VStr t => Ok (VStr (s ++ t)%string)
  | VTuple l, VTuple m => Ok (VTuple (l ++ m))
  | VList l, VList m => Ok (VList (l ++ m))
  | _, _ => Raise (TypeError "unsupported operand type(s) for +")
  end.

(** [a < b], for the numbers; the orders of the other types are not
    needed by the program and are left out as a [TypeError]. *)
Definition lt (a b : value) : outcome bool :=
  match a, b with
  | VInt x, VInt y => Ok (x <? y)
  | VDecimal x, VInt y => Ok (dec_ltb x (dec_of_int y))
  | VInt x, VDecimal y => Ok (dec_ltb (dec_of_int x) y)
  | VDecimal x, VDecimal y => Ok (dec_ltb x y)
  | VDatetime s, VDatetime t => Ok (s <? t)
  | _, _ => Raise (TypeError "'<' not supported between instances")
  end.

(** *** Formatted string literals

    An f-string is kept as written: its literal parts and, for each
    replacement field, the value and the format specification.  The
    rendering of a field to text is the UI's concern and is not needed
    here. *)
Inductive fragment :=
| Lit (s : string)
| Field (v : value) (format_spec : string)
| FieldExn (e : exn).

Definition fstring := list fragment.

End Py.

Import Py.

(** ** The world the program runs in *)

(** What the program does to its environment, in the order it does it: the
    calls to the driver's cursor and connection, and the calls to the UI
    ([st.error], [st.success]). *)
Inductive event :=
| CursorExecute (query : string) (vars : option value)
| ConnectionCommit
| CursorFetchall
| StError (msg : fstring)
| StSuccess (msg : fstring).

(** A cursor after [cursor.execute]: the result set of the statement, or
    [None] when the statement returns no rows. *)
Definition cursor := option (list value).

(** [cursor.fetchall()]: the rows, or psycopg2's [ProgrammingError] when the
    last statement produced no result set. *)
Definition cursor_fetchall (cur : cursor) : outcome value :=
  match cur with
  | Some rows => Ok (VList rows)
  | None => Raise (Psycopg2Error "no results to fetch")
  end.

(** The interface of the database driver the gateway relies on:
    [cursor.execute(query)] or [cursor.execute(query, vars)], and
    [connection.commit()], each acting on the state [C] behind the
    connection. *)
Class Driver (C : Type) := {
  cursor_execute : string -> option value -> C -> outcome cursor * C;
  connection_commit : C -> outcome unit * C
}.

(** [conn] is [DatabaseManager.conn]: [None] when [connect_to_db] failed.
    [clock] is what [datetime.now()] returns. *)
Record world (C : Type) := World {
  conn : option C;
  clock : Z;
  trace : list event
}.
Arguments World {C} conn clock trace.
Arguments conn {C} w.
Arguments clock {C} w.
Arguments trace {C} w.

(** ** DatabaseManager *)

Section DatabaseManager.
Context {C : Type} `{Driver C}.

(** State (the world) and exceptions. *)
Definition M (A : Type) : Type := world C -> outcome A * world C.

Definition ret {A} (a : A) : M A := fun w => (Ok a, w).

Definition raise {A} (e : exn) : M A := fun w => (Raise e, w).

Definition bind {A B} (m : M A) (f : A -> M B) : M B :=
  fun w =>
    match m w with
    | (Ok a, w') => f a w'
    | (Raise e, w') => (Raise e, w')
    end.

(** [try: body except ... as e: handler] *)
Definition try_except {A} (body : M A) (handler : exn -> M A) : M A :=
  fun w =>
    match body w with
    | (Ok a, w') => (Ok a, w')
    | (Raise e, w') => handler e w'
    end.

Definition emit (ev : event) : M unit :=
  fun w => (Ok tt, World (conn w) (clock w) (trace w ++ [ev])).

(** A method call on [self.conn], or on a cursor got from it.  On
    [None] the attribute lookup [self.conn.cursor] or [self.conn.commit]
    fails. *)
Definition on_conn {A} (attribute : string) (f : C -> outcome A * C) : M A :=
  fun w =>
    match conn w with
    | None =>
        (Raise (AttributeError ("'NoneType' object has no attribute '" ++ attribute ++ "'")%string),
         w)
    | Some c => let '(r, c') := f c in (r, World (Some c') (clock w) (trace w))
    end.

(** [self.conn.cursor()] *)
Definition conn_cursor : M unit := on_conn "cursor" (fun c => (Ok tt, c)).

Definition call_cursor_execute (query : string) (vars : option value) : M cursor :=
  bind (emit (CursorExecute query vars)) (fun _ => on_conn "cursor" (cursor_execute query vars)).

Definition call_commit : M unit :=
  bind (emit ConnectionCommit) (fun _ => on_conn "commit" connection_commit).

Definition call_fetchall (cur : cursor) : M value :=
  bind (emit CursorFetchall) (fun _ w => (cursor_fetchall cur, w)).

Definition st_error (msg : fstring) : M unit := emit (StError msg).

Definition st_success (msg : fstring) : M unit := emit (StSuccess msg).

Notation "'let!' x ':=' m 'in' k" := (bind m (fun x => k))
  (at level 10, x binder, m at level 200, k at level 200).

(** [DatabaseManager.execute_query(query, params=None)].  A function that
    reaches its end returns [None]. *)
Definition execute_query (query : string) (params : value) : M value :=
  try_except
    (let! _ := conn_cursor in
     let! cur := (if truthy params
                  then call_cursor_execute query (Some params)
                  else call_cursor_execute query None) in
     let! _ := (if negb (startswith query "SELECT") then call_commit else ret tt) in
     if startswith (upper (strip query)) "SELECT"
     then call_fetchall cur
     else ret VNone)
    (fun e =>
       if is_psycopg2_Error e
       then let! _ := st_error [Lit "Error executing query: "; FieldExn e] in ret VNone
       else raise e).

End DatabaseManager.

(** ** Programs over the gateway *)

(** The code of [InventoryManager] and [SalesManager]: what it computes, and
    the calls it makes to [self.db_manager.execute_query], to [datetime.now]
    and to the UI. *)
Inductive prog (A : Type) : Type :=
| Ret (a : A)
| Throw (e : exn)
| CallExecuteQuery (query : string) (params : value) (k : value -> prog A)
| CallNow (k : value -> prog A)
| CallStError (msg : fstring) (k : prog A)
| CallStSuccess (msg : fstring) (k : prog A).
Arguments Ret {A} a.
Arguments Throw {A} e.
Arguments CallExecuteQuery {A} query params k.
Arguments CallNow {A} k.
Arguments CallStError {A} msg k.
Arguments CallStSuccess {A} msg k.

Fixpoint pbind {A B} (m : prog A) (f : A -> prog B) : prog B :=
  match m with
  | Ret a => f a
  | Throw e => Throw e
  | CallExecuteQuery q p k => CallExecuteQuery q p (fun v => pbind (k v) f)
  | CallNow k => CallNow (fun v => pbind (k v) f)
  | CallStError msg k => CallStError msg (pbind k f)
  | CallStSuccess msg k => CallStSuccess msg (pbind k f)
  end.

(** The value of a Python expression, or the exception it raises. *)
Definition eval {A} (o : outcome A) : prog A :=
  match o with Ok a => Ret a | Raise e => Throw e end.

Declare Scope prog_scope.
Delimit Scope prog_scope with prog.
Notation "'let!' x ':=' m 'in' k" := (pbind m (fun x => k))
  (at level 10, x binder, m at level 200, k at level 200) : prog_scope.

(** The sequential run of a program on a world. *)
Fixpoint run {C} `{Driver C} {A} (m : prog A) : M (C := C) A :=
  match m with
  | Ret a => ret a
  | Throw e => raise e
  | CallExecuteQuery q p k => bind (execute_query q p) (fun v => run (k v))
  | CallNow k => fun w => run (k (VDatetime (clock w))) w
  | CallStError msg k => bind (st_error msg) (fun _ => run k)
  | CallStSuccess msg k => bind (st_success msg) (fun _ => run k)
  end.

Local Open Scope prog_scope.

(** [self.db_manager.execute_query(query, params)] *)
Definition db_execute_query (query : string) (params : value) : prog value :=
  CallExecuteQuery query params Ret.

Definition st_error_ (msg : fstring) : prog unit := CallStError msg (Ret tt).

Definition st_success_ (msg : fstring) : prog unit := CallStSuccess msg (Ret tt).

Definition datetime_now : prog value := CallNow Ret.

(** [x is None] *)
Definition is_None (v : value) : bool :=
  match v with VNone => true | _ => false end.

(** The elements a [for] or a comprehension iterates over. *)
Definition iter (v : value) : outcome (list value) :=
  match v with
  | VList l | VTuple l => Ok l
  | VStr s => Ok ((fun c => VStr (String c EmptyString)) <$> list_ascii_of_string s)
  | _ => Raise (TypeError "object is not iterable")
  end.

(** A function of a Python class body, by its number of parameters after
    [self]. *)
Inductive method :=
| Def0 (body : prog value)
| Def3 (body : value -> value -> value -> prog value).

(** A class body is a sequence of [def] statements, executed in order:
    each binds its name in the class namespace, replacing what the name was
    bound to. *)
Definition class_namespace (body : list (string * method)) : gmap string method :=
  foldl (fun ns d => <[d.1 := d.2]> ns) ∅ body.

(** ** InventoryManager *)

Module InventoryManager.

Definition add_item_to_inventory (item quantity price : value) : prog value :=
  let query := "INSERT INTO inventory (item, quantity, price) VALUES (%s, %s, %s)" in
  let! _ := db_execute_query query (VTuple [item; quantity; price]) in
  Ret VNone.

(** [[item[0] for item in items]] *)
Fixpoint first_columns (items : list value) : outcome (list value) :=
  match items with
  | [] => Ok []
  | item :: rest =>
      match getitem item 0 with
      | Ok x => match first_columns rest with
                | Ok xs => Ok (x :: xs)
                | Raise e => Raise e
                end
      | Raise e => Raise e
      end
  end.

(** The first [def get_items_in_inventory], at lines 61 to 64. *)
Definition get_items_in_inventory_1 : prog value :=
  let query := "SELECT item FROM inventory" in
  let! items := db_execute_query query VNone in
  if truthy items
  then let! l := eval (iter items) in
       let! xs := eval (first_columns l) in
       Ret (VList xs)
  else Ret (VList []).

(** The second [def get_items_in_inventory], at lines 66 to 69. *)
Definition get_items_in_inventory_2 : prog value :=
  let query := "SELECT item, quantity, price FROM inventory" in
  let! inventory_data := db_execute_query query VNone in
  Ret (if truthy inventory_data then inventory_data else VList []).

(** [get_items_in_sales]: its body is [pass]. *)
Definition get_items_in_sales : prog value := Ret VNone.

Definition body : list (string * method) :=
  [ ("add_item_to_inventory", Def3 add_item_to_inventory);
    ("get_items_in_inventory", Def0 get_items_in_inventory_1);
    ("get_items_in_inventory", Def0 get_items_in_inventory_2);
    ("get_items_in_sales", Def0 get_items_in_sales) ].

Definition namespace : gmap string method := class_namespace body.

(** [inventory_manager.get_items_in_inventory()]: the attribute is looked
    up in the class namespace and called. *)
Definition get_items_in_inventory : prog value :=
  match namespace !! "get_items_in_inventory" with
  | Some (Def0 f) => f
  | Some _ => Throw (TypeError "missing required positional arguments")
  | None => Throw (AttributeError "object has no attribute 'get_items_in_inventory'")
  end.

End InventoryManager.

(** ** SalesManager *)

Module SalesManager.

Definition get_item_price (item : value) : prog value :=
  let query := "SELECT price FROM inventory WHERE item = %s" in
  let! price := db_execute_query query (VTuple [item]) in
  if truthy price
  then let! row := eval (getitem price 0) in eval (getitem row 0)
  else Ret VNone.

Definition get_current_quantity (item : value) : prog value :=
  let query := "SELECT quantity FROM inventory WHERE item = %s" in
  let! quantity := db_execute_query query (VTuple [item]) in
  if truthy quantity
  then let! row := eval (getitem quantity 0) in eval (getitem row 0)
  else Ret (VInt 0).

(** How control leaves a loop body's enclosing function: by a [return]
    inside the loop, or by the loop running to its end with the local
    variables [a]. *)
Inductive loop_exit (A : Type) :=
| Returned (v : value)
| Completed (a : A).
Arguments Returned {A} v.
Arguments Completed {A} a.

(** The first loop of [make_sale], lines 88 to 101, with its local
    variables [total_price] and [queries]. *)
Fixpoint validate (items_quantities : list (value * value)) (customer sale_date : value)
    (total_price : value) (queries : list (string * value))
    : prog (loop_exit (value * list (string * value))) :=
  match items_quantities with
  | [] => Ret (Completed (total_price, queries))
  | (item, quantity) :: rest =>
      let! item_price := get_item_price item in
      if is_None item_price
      then let! _ := st_error_ [Lit "No price found for item: "; Field item ""] in
           Ret (Returned VNone)
      else
        let! current_quantity := get_current_quantity item in
        let! short := eval (lt current_quantity quantity) in
        if (short : bool)
        then let! _ := st_error_ [Lit "Insufficient quantity for item: "; Field item "";
                                  Lit " in inventory. Avaliable: "; Field current_quantity ""] in
             Ret (Returned VNone)
        else
          let! sale_price := eval (mul item_price quantity) in
          let queries := (queries ++
            [ ("INSERT INTO sales (item, quantity, price, customer, sale_date) VALUES (%s,%s,%s,%s,%s)",
               VTuple [item; quantity; sale_price; customer; sale_date]);
              ("UPDATE inventory SET quantity = quantity - %s WHERE item = %s",
               VTuple [quantity; item]) ])%list in
          let! total_price := eval (add total_price sale_price) in
          validate rest customer sale_date total_price queries
  end.

(** The second loop of [make_sale], lines 103 and 104. *)
Fixpoint apply_queries (queries : list (string * value)) : prog unit :=
  match queries with
  | [] => Ret tt
  | (query, params) :: rest =>
      let! _ := db_execute_query query params in
      apply_queries rest
  end.

(** [items_quantities] is the dict, as its items in iteration order. *)
Definition make_sale (items_quantities : list (value * value)) (customer : value)
    : prog value :=
  let total_price := VInt 0 in
  let! sale_date := datetime_now in
  let queries := [] in
  let! r := validate items_quantities customer sale_date total_price queries in
  match r with
  | Returned v => Ret v
  | Completed (total_price, queries) =>
      let! _ := apply_queries queries in
      let! _ := st_success_ [Lit "Sale recorded successfully. Total Price: N";
                            Field total_price ",.2f"] in
      Ret VNone
  end.

End SalesManager.

(** ** The store behind the connection *)

Module Pg.

(** Modelled from the spec: the schema, whose [CREATE TABLE] statements
    are not in the source.  Two tables,
    [inventory(item TEXT, quantity INTEGER, price NUMERIC)] without a
    uniqueness constraint on [item], and
    [sales(item TEXT, quantity INTEGER, price NUMERIC, customer TEXT,
    sale_date TIMESTAMP)].  A table is the list of its rows in insertion
    order; the columns hold no NULL, and the ranges of the SQL types are
    not modelled. *)
Record inventory_row := InventoryRow {
  item : string;
  quantity : Z;
  price : decimal
}.

Record sales_row := SalesRow {
  sold_item : string;
  sold_quantity : Z;
  sold_price : decimal;
  customer : string;
  sale_date : Z
}.

Record database := Database {
  inventory : list inventory_row;
  sales : list sales_row
}.

(** [WHERE item = %s] *)
Definition where_item (i : string) (rows : list inventory_row) : list inventory_row :=
  filter (fun r => item r = i) rows.

(** [SET quantity = quantity - %s WHERE item = %s] *)
Definition decrement (q : Z) (i : string) (r : inventory_row) : inventory_row :=
  if decide (item r = i) then InventoryRow (item r) (quantity r - q) (price r) else r.

Definition syntax_error (db : database) : outcome cursor * database :=
  (Raise (Psycopg2Error "syntax error at or near '%'"), db).

Section Execute.
(** What the server does with any other statement, or with parameters
    of other types. *)
Variable other_statements : string -> option value -> database -> outcome cursor * database.

(** [cursor.execute]: the six statements of the program.  A statement
    with placeholders that is executed without parameters reaches the
    server with its [%s] and is rejected there. *)
Definition execute (query : string) (vars : option value) (db : database)
    : outcome cursor * database :=
  if String.eqb query "INSERT INTO inventory (item, quantity, price) VALUES (%s, %s, %s)" then
    match vars with
    | Some (VTuple [VStr i; VInt q; VDecimal p]) =>
        (Ok None, Database (inventory db ++ [InventoryRow i q p]) (sales db))
    | None => syntax_error db
    | _ => other_statements query vars db
    end
  else if String.eqb query "SELECT item FROM inventory" then
    match vars with
    | None => (Ok (Some ((fun r => VTuple [VStr (item r)]) <$> inventory db)), db)
    | _ => other_statements query vars db
    end
  else if String.eqb query "SELECT item, quantity, price FROM inventory" then
    match vars with
    | None =>
        (Ok (Some ((fun r => VTuple [VStr (item r); VInt (quantity r); VDecimal (price r)])
                     <$> inventory db)), db)
    | _ => other_statements query vars db
    end
  else if String.eqb query "SELECT price FROM inventory WHERE item = %s" then
    match vars with
    | Some (VTuple [VStr i]) =>
        (Ok (Some ((fun r => VTuple [VDecimal (price r)]) <$> where_item i (inventory db))), db)
    | None => syntax_error db
    | _ => other_statements query vars db
    end
  else if String.eqb query "SELECT quantity FROM inventory WHERE item = %s" then
    match vars with
    | Some (VTuple [VStr i]) =>
        (Ok (Some ((fun r => VTuple [VInt (quantity r)]) <$> where_item i (inventory db))), db)
    | None => syntax_error db
    | _ => other_statements query vars db
    end
  else if String.eqb query
       "INSERT INTO sales (item, quantity, price, customer, sale_date) VALUES (%s,%s,%s,%s,%s)" then
    match vars with
    | Some (VTuple [VStr i; VInt q; VDecimal p; VStr c; VDatetime t]) =>
        (Ok None, Database (inventory db) (sales db ++ [SalesRow i q p c t]))
    | None => syntax_error db
    | _ => other_statements query vars db
    end
  else if String.eqb query "UPDATE inventory SET quantity = quantity - %s WHERE item = %s" then
    match vars with
    | Some (VTuple [VInt q; VStr i]) =>
        (Ok None, Database (decrement q i <$> inventory db) (sales db))
    | None => syntax_error db
    | _ => other_statements query vars db
    end
  else other_statements query vars db.

(** [connection.commit()]: the store keeps what the statements did. *)
Definition commit (db : database) : outcome unit * database := (Ok tt, db).

Definition driver : Driver database :=
  {| cursor_execute := execute; connection_commit := commit |}.

End Execute.

(** A server that rejects every statement that is not one of the six. *)
Definition reject_others (query : string) (vars : option value) (db : database)
    : outcome cursor * database :=
  (Raise (Psycopg2Error "statement not supported"), db).


(** What [get_item_price] and [get_current_quantity] read: the first row
    of the item. *)
Definition first_row (i : string) (db : database) : option inventory_row :=
  head (where_item i (inventory db)).

End Pg.

Import Pg.

(** ** The program on the store *)

(** A request whose item names are strings and whose quantities are
    integers, as the dict [make_sale] receives. *)
Definition request (lines : list (string * Z)) : list (value * value) :=
  (fun l => (VStr l.1, VInt l.2)) <$> lines.

(** The driver calls of [get_item_price(i)] and [get_current_quantity(i)]. *)
Definition price_lookup (i : string) : list event :=
  [ CursorExecute "SELECT price FROM inventory WHERE item = %s" (Some (VTuple [VStr i]));
    CursorFetchall ].

Definition quantity_lookup (i : string) : list event :=
  [ CursorExecute "SELECT quantity FROM inventory WHERE item = %s" (Some (VTuple [VStr i]));
    CursorFetchall ].

(** The two messages of [make_sale]'s validation, and its last message. *)
Definition unknown_item_error (i : string) : fstring :=
  [Lit "No price found for item: "; Field (VStr i) ""].

Definition insufficient_stock_error (i : string) (available : Z) : fstring :=
  [Lit "Insufficient quantity for item: "; Field (VStr i) "";
   Lit " in inventory. Avaliable: "; Field (VInt available) ""].

Definition sale_recorded (total_price : value) : fstring :=
  [Lit "Sale recorded successfully. Total Price: N"; Field total_price ",.2f"].

(** A line passes validation: the item has a row, and the first one holds
    at least the requested quantity. *)
Definition passes (db : database) (l : string * Z) : bool :=
  match first_row l.1 db with
  | Some r => negb (quantity r <? l.2)
  | None => false
  end.

(** What [get_current_quantity] returns for an item. *)
Definition current_quantity (db : database) (i : string) : Z :=
  match first_row i db with
  | Some r => quantity r
  | None => 0
  end.

(** What the validation of one line reads, and what it reports when the
    line fails. *)
Definition validation_reads (db : database) (l : string * Z) : list event :=
  match first_row l.1 db with
  | Some _ => price_lookup l.1 ++ quantity_lookup l.1
  | None => price_lookup l.1
  end.

Definition validation_error (db : database) (l : string * Z) : fstring :=
  match first_row l.1 db with
  | Some r => insufficient_stock_error l.1 (quantity r)
  | None => unknown_item_error l.1
  end.

(** What the validation of a line that passes reads. *)
Definition passing_reads (l : string * Z) : list event :=
  (price_lookup l.1 ++ quantity_lookup l.1)%list.

(** No driver call of the list writes: each is a [SELECT] or a
    [fetchall]. *)
Definition read_only (ev : event) : bool :=
  match ev with
  | CursorExecute q _ => startswith q "SELECT"
  | CursorFetchall => true
  | _ => false
  end.

Definition numeric (v : value) : Prop :=
  match v with VInt _ | VDecimal _ => True | _ => False end.

(** [tr ++ [a; b; c]] as [((tr ++ [a]) ++ [b]) ++ [c]], the form in which
    the run produces a trace. *)
Ltac snoc_form :=
  repeat match goal with
  | |- context [(?t ++ (?a :: ?b :: ?l))%list] =>
      change (t ++ a :: b :: l)%list with (t ++ [a] ++ (b :: l))%list;
      rewrite (app_assoc t [a] (b :: l))
  end.

(** The driver of a connection to the store. *)
Definition pg (other : string -> option value -> database -> outcome cursor * database)
    : Driver database :=
  driver other.

(** The line total and the two statements of a line, as [validate]
    queues them. *)
Definition line_total (r : inventory_row) (q : Z) : decimal :=
  dec_mul (price r) (dec_of_int q).

Definition line_queries (r : inventory_row) (l : string * Z) (customer sale_date : value)
    : list (string * value) :=
  [ ("INSERT INTO sales (item, quantity, price, customer, sale_date) VALUES (%s,%s,%s,%s,%s)",
     VTuple [VStr l.1; VInt l.2; VDecimal (line_total r l.2); customer; sale_date]);
    ("UPDATE inventory SET quantity = quantity - %s WHERE item = %s",
     VTuple [VInt l.2; VStr l.1]) ].

(** [total_price += sale_price] on a number. *)
Definition add_total (total_price : value) (d : decimal) : value :=
  match total_price with
  | VInt n => VDecimal (dec_add (dec_of_int n) d)
  | VDecimal t => VDecimal (dec_add t d)
  | _ => VNone
  end.

(** A row of the inventory as the listing returns it. *)
Definition triple (r : inventory_row) : value :=
  VTuple [VStr (item r); VInt (quantity r); VDecimal (price r)].

(** [make_sale] stops at a validation error [msg] and has written
    nothing: the store is the same, and all it did before the message
    were reads. *)
Definition aborts_without_writes
    (other : string -> option value -> database -> outcome cursor * database)
    (db : database) (clk : Z) (tr : list event)
    (lines : list (string * Z)) (customer : value) (msg : fstring) : Prop :=
  exists reads,
    forallb read_only reads = true /\
    run (H := pg other) (SalesManager.make_sale (request lines) customer)
      (World (Some db) clk tr)
    = (Ok VNone, World (Some db) clk (tr ++ reads ++ [StError msg])).

(** The ledger of the examples: aspirin, and how many units of it, at
    2.00. *)
Definition aspirin_ledger (units : Z) : database :=
  Database [InventoryRow "aspirin" units (Decimal 200 (-2))] [].

(** [if params:] chooses between [cursor.execute(query, params)] and
    [cursor.execute(query)]. *)
Definition vars_of (params : value) : option value :=
  if truthy params then Some params else None.

(** * Concurrent sales *)

(** Several sessions, each with a connection of its own to the same store,
    each running a program.  A step runs one call of one session to its
    end: a call of [execute_query] is one statement together with its
    commit, and the server applies it to the store as a whole (the
    statements of the program are single-row reads and single-statement
    writes; an [UPDATE ... SET quantity = quantity - %s] reads and writes
    the row in one step).  The steps of the sessions interleave in any
    order. *)
Module Concurrent.

(** The rest of a program once its first call has returned [v]. *)
Definition resume {A} (m : prog A) (v : value) : prog A :=
  match m with
  | CallExecuteQuery _ _ k | CallNow k => k v
  | CallStError _ k | CallStSuccess _ k => k
  | Ret _ | Throw _ => m
  end.

Record thread := Thread {
  code : prog value;
  seen : list event
}.

Record system := System {
  store : database;
  now : Z;
  threads : list thread
}.

Section Steps.
Variable other : string -> option value -> database -> outcome cursor * database.
#[local] Hint Extern 0 (Driver database) => exact (pg other) : typeclass_instances.

(** One call of a session, on the store as it is now.  A session whose
    program has returned or raised has no step. *)
Definition thread_step (db : database) (clk : Z) (t : thread) : option (database * thread) :=
  match code t with
  | Ret _ | Throw _ => None
  | CallExecuteQuery q p k =>
      let '(r, w) := execute_query q p (World (Some db) clk (seen t)) in
      Some (default db (conn w),
            Thread (match r with Ok v => k v | Raise e => Throw e end) (trace w))
  | CallNow k => Some (db, Thread (k (VDatetime clk)) (seen t))
  | CallStError msg k => Some (db, Thread k (seen t ++ [StError msg]))
  | CallStSuccess msg k => Some (db, Thread k (seen t ++ [StSuccess msg]))
  end.

(** The step of session [n]. *)
Definition step_at (n : nat) (s : system) : option system :=
  match threads s !! n with
  | Some t =>
      match thread_step (store s) (now s) t with
      | Some (db', t') => Some (System db' (now s) (<[n := t']> (threads s)))
      | None => None
      end
  | None => None
  end.

Definition step (s s' : system) : Prop := exists n, step_at n s = Some s'.

(** The system after the steps of a schedule, the list of the sessions
    that step, in order. *)
Fixpoint run_schedule (schedule : list nat) (s : system) : option system :=
  match schedule with
  | [] => Some s
  | n :: rest =>
      match step_at n s with
      | Some s' => run_schedule rest s'
      | None => None
      end
  end.

(** A session has finished with a success: its program has returned and
    the last thing it did was [st.success]. *)
Definition succeeded (t : thread) : Prop :=
  code t = Ret VNone /\ exists msg, last (seen t) = Some (StSuccess msg).

End Steps.

(** [make_sale({item: 1}, customer)] *)
Definition sale (i : string) (c : string) : prog value :=
  SalesManager.make_sale [(VStr i, VInt 1)] (VStr c).

(** [n] sessions, one for each customer, at the start of a sale of one
    unit of [i]. *)
Definition sessions (i : string) (customers : list string) : list thread :=
  (fun c => Thread (sale i c) []) <$> customers.

End Concurrent.

Import Concurrent.

(** ** The stages of a sale *)

Module Stages.

Section Stages.
Variables (i : string) (p : decimal) (clk : Z).

(** Where a session of [sale i c] stands after [pc] steps, when its
    validation passes: what its calls have returned so far, and the
    program and the trace that result. *)
Definition answer (pc : nat) : value :=
  match pc with
  | 0%nat => VDatetime clk
  | 1%nat => VList [VTuple [VDecimal p]]
  | 2%nat => VList [VTuple [VInt 1]]
  | _ => VNone
  end.

Fixpoint stage (c : string) (pc : nat) : prog value :=
  match pc with
  | O => sale i c
  | S pc' => resume (stage c pc') (answer pc')
  end.

Definition sale_events (c : string) : list event :=
  price_lookup i ++ quantity_lookup i ++
  [ CursorExecute
      "INSERT INTO sales (item, quantity, price, customer, sale_date) VALUES (%s,%s,%s,%s,%s)"
      (Some (VTuple [VStr i; VInt 1; VDecimal (dec_mul p (dec_of_int 1)); VStr c; VDatetime clk]));
    ConnectionCommit;
    CursorExecute "UPDATE inventory SET quantity = quantity - %s WHERE item = %s"
      (Some (VTuple [VInt 1; VStr i]));
    ConnectionCommit;
    StSuccess (sale_recorded (VDecimal (dec_add (dec_of_int 0) (dec_mul p (dec_of_int 1))))) ].

Definition events_after (pc : nat) : nat :=
  match pc with
  | 0 | 1 => 0
  | 2 => 2
  | 3 => 4
  | 4 => 6
  | 5 => 8
  | _ => 9
  end%nat.

Definition thread_at (cp : string * nat) : thread :=
  Thread (stage cp.1 cp.2) (take (events_after cp.2) (sale_events cp.1)).

(** What the step from [pc] does to the store. *)
Definition store_after (cp : string * nat) (db : database) : database :=
  match cp.2 with
  | 3%nat => Database (inventory db)
               (sales db ++ [SalesRow i 1 (dec_mul p (dec_of_int 1)) cp.1 clk])
  | 4%nat => Database (decrement 1 i <$> inventory db) (sales db)
  | _ => db
  end.

(** The system in which session [n] is the sale of the [n]th customer
    after as many steps as the list says. *)
Definition system_of (db : database) (cps : list (string * nat)) : system :=
  System db clk (thread_at <$> cps).

(** How many sessions have run their [UPDATE], and how many steps all
    sessions have made. *)
Definition updated (cp : string * nat) : nat := if decide (5 <= cp.2)%nat then 1 else 0.
Definition updates (cps : list (string * nat)) : nat := sum_list_with updated cps.
Definition steps_done (cps : list (string * nat)) : nat := sum_list_with snd cps.

(** The first row of the item holds what the sessions have not yet
    taken. *)
Definition stock_invariant (N : nat) (db : database) (cps : list (string * nat)) : Prop :=
  List.length cps = N /\ Forall (fun cp => (cp.2 <= 6)%nat) cps /\
  exists r, first_row i db = Some r /\ price r = p /\
            quantity r = Z.of_nat N - Z.of_nat (updates cps).

End Stages.

End Stages.

(** ** A whole sale *)



(** The [sale_price] of a line: the price of the first row of its item, as
    it is before the sale, times the quantity. *)
Definition line_price (db : database) (l : string * Z) : decimal :=
  match first_row l.1 db with
  | Some r => line_total r l.2
  | None => Decimal 0 0
  end.






(** ** Drivers and their errors *)

(** The driver raises nothing but [psycopg2.Error]: no call of it fails with
    an exception of another class. *)
Definition raises_only_psycopg2_errors {C : Type} `{Driver C} : Prop :=
  (forall query vars c e c', cursor_execute query vars c = (Raise e, c') ->
                             is_psycopg2_Error e = true)
  /\ (forall c e c', connection_commit c = (Raise e, c') -> is_psycopg2_Error e = true).

(** The message of [execute_query] for the error [e]. *)
Definition query_error (e : exn) : fstring := [Lit "Error executing query: "; FieldExn e].

(** A server that answers the reads and rejects every statement that is
    not a [SELECT], as a server does in a read-only transaction. *)
Definition read_only_execute (query : string) (vars : option value) (db : database)
    : outcome cursor * database :=
  if startswith query "SELECT"
  then execute reject_others query vars db
  else (Raise (Psycopg2Error "cannot execute in a read-only transaction"), db).

Definition read_only_pg : Driver database :=
  {| cursor_execute := read_only_execute; connection_commit := commit |}.

(** A server that has closed the connection: every call of the driver
    fails. *)
Definition closed_pg : Driver database :=
  {| cursor_execute := fun _ _ db =>
       (Raise (Psycopg2Error "server closed the connection unexpectedly"), db);
     connection_commit := fun db =>
       (Raise (Psycopg2Error "connection already closed"), db) |}.

(** ** Connecting *)

(** The arguments of [DatabaseManager(...)], kept in the fields of the
    same names. *)
Record connection_parameters := ConnectionParameters {
  dbname : string;
  user : string;
  password : string;
  host : string;
  port : string
}.

Section Connect.
Context {C : Type} `{Driver C}.

(** [psycopg2.connect(dbname=..., user=..., password=..., host=...,
    port=...)]: the connection, or the exception. *)
Variable psycopg2_connect : connection_parameters -> outcome C.

(** [DatabaseManager.connect_to_db] *)
Definition connect_to_db (self : connection_parameters) : M (C := C) (option C) :=
  try_except
    (bind (fun w => (psycopg2_connect self, w)) (fun conn => ret (Some conn)))
    (fun e =>
       if is_psycopg2_Error e
       then bind (st_error [Lit "Error connecting to PostgreSQL database: "; FieldExn e])
                 (fun _ => ret None)
       else raise e).

(** [DatabaseManager.__init__]: [self.conn = self.connect_to_db()] *)
Definition DatabaseManager_init (self : connection_parameters) : M (C := C) unit :=
  bind (connect_to_db self) (fun conn w => (Ok tt, World conn (clock w) (trace w))).

End Connect.

(** An event is not one of an explicit list of other events. *)
Ltac not_in_events :=
  let Hin := fresh "Hin" in
  intros Hin;
  repeat (apply elem_of_cons in Hin as [Hin|Hin]; [discriminate Hin|]);
  by apply elem_of_nil in Hin.

(** The operations of the two managers that execute a statement: it is
    their first call, after [datetime.now()] in a sale. *)
Inductive reaches_gateway : prog value -> Prop :=
| reaches_add item quantity price :
    reaches_gateway (InventoryManager.add_item_to_inventory item quantity price)
| reaches_list : reaches_gateway InventoryManager.get_items_in_inventory
| reaches_price item : reaches_gateway (SalesManager.get_item_price item)
| reaches_quantity item : reaches_gateway (SalesManager.get_current_quantity item)
| reaches_sale line rest customer :
    reaches_gateway (SalesManager.make_sale (line :: rest) customer).


(** ** The page: [main] *)

(** The calls [main] makes to Streamlit, with their arguments as written.
    The keyword arguments of [st.number_input] are kept as their source
    text. *)
Inductive ui_call :=
| StTitle (body : string)
| StSubheader (body : string)
| StWrite (body : string)
| StDataframe (data : value) (columns : list string)
| StSidebarSelectbox (label : string) (options : value)
| StSelectbox (label : string) (options : value)
| StTextInput (label : string)
| StNumberInput (label : string) (kwargs : list (string * string))
| StButton (label : string).

(** The code of [main]: what it shows, what it asks the widgets, the
    manager it builds and the methods it calls. *)
Inductive script (A : Type) : Type :=
| Done (a : A)
| Show (call : ui_call) (k : script A)
| Ask (call : ui_call) (k : value -> script A)
| Construct (self : connection_parameters) (k : script A)
| CallMethod (m : prog value) (k : value -> script A).
Arguments Done {A} a.
Arguments Show {A} call k.
Arguments Ask {A} call k.
Arguments Construct {A} self k.
Arguments CallMethod {A} m k.

(** [v == s] for a string literal [s] *)
Definition eq_str (v : value) (s : string) : bool :=
  match v with VStr t => String.eqb t s | _ => false end.

(** A run of the script: [user] is what each widget returns in this run,
    [psycopg2_connect] is what the driver does on connecting; the calls to
    Streamlit are logged on the [screen] in order. *)
Fixpoint run_script {C} `{Driver C} (user : ui_call -> value)
    (psycopg2_connect : connection_parameters -> outcome C) {A} (s : script A)
    (w : world C) (screen : list ui_call) : outcome A * world C * list ui_call :=
  match s with
  | Done a => (Ok a, w, screen)
  | Show call k => run_script user psycopg2_connect k w (screen ++ [call])
  | Ask call k => run_script user psycopg2_connect (k (user call)) w (screen ++ [call])
  | Construct self k =>
      match DatabaseManager_init psycopg2_connect self w with
      | (Ok _, w') => run_script user psycopg2_connect k w' screen
      | (Raise e, w') => (Raise e, w', screen)
      end
  | CallMethod m k =>
      match run m w with
      | (Ok v, w') => run_script user psycopg2_connect (k v) w' screen
      | (Raise e, w') => (Raise e, w', screen)
      end
  end.

Definition menu : value :=
  VList [VStr "Home"; VStr "Inventory Management"; VStr "Sales Tracking"].

(** The branch [choice == "Home"], lines 130 to 132. *)
Definition home_page : script value :=
  Show (StSubheader "Home")
    (Show (StWrite "Welcome to the Pharmacy Management System.") (Done VNone)).

(** The branch [choice == "Inventory Management"], lines 134 to 158. *)
Definition inventory_page : script value :=
  Show (StSubheader "Inventory Management")
    (Show (StWrite "Add new items to the inventory:")
    (Ask (StTextInput "Item") (fun item =>
     Ask (StNumberInput "Quantity" [("value", "1"); ("min_value", "1")]) (fun quantity =>
     Ask (StNumberInput "Price" [("value", "0.0"); ("step", "0.01")]) (fun price =>
     Ask (StButton "Add to Inventory") (fun add_clicked =>
     let after_add k :=
       if truthy add_clicked
       then CallMethod (InventoryManager.add_item_to_inventory item quantity price) (fun _ => k)
       else k in
     after_add
       (CallMethod InventoryManager.get_items_in_inventory (fun items_in_inventory =>
        Ask (StSelectbox "Item" items_in_inventory) (fun selected_item =>
        Ask (StButton "View Inventory") (fun view_clicked =>
        if truthy view_clicked
        then
          Show (StWrite "Inventory Details:")
            (CallMethod InventoryManager.get_items_in_inventory (fun inventory_data =>
             if truthy inventory_data
             then Show (StDataframe inventory_data ["Item"; "Quantity"; "Price"]) (Done VNone)
             else Show (StWrite "No items in inventory.") (Done VNone)))
        else Done VNone)))))))))).

(** The branch [choice == "Sales Tracking"], lines 160 to 170. *)
Definition sales_page : script value :=
  Show (StSubheader "Sales Tracking")
    (Show (StWrite "Record sales transactions:")
    (CallMethod InventoryManager.get_items_in_inventory (fun items_in_inventory =>
     CallMethod (let! l := eval (iter items_in_inventory) in
                 let! xs := eval (InventoryManager.first_columns l) in
                 Ret (VList xs)) (fun items_list =>
     Ask (StSelectbox "Select Item to Sell" items_list) (fun selected_item =>
     Ask (StNumberInput "Quantity" [("value", "1"); ("min_value", "1")]) (fun quantity =>
     Ask (StTextInput "Customer") (fun customer =>
     Ask (StButton "Record Sale") (fun record_clicked =>
     if truthy record_clicked
     then CallMethod (SalesManager.make_sale [(selected_item, quantity)] customer)
            (fun _ => Done VNone)
     else Done VNone)))))))).

(** [main], lines 119 to 170. *)
Definition main : script value :=
  Show (StTitle "Pharmacy Management System")
    (Construct (ConnectionParameters "GlossonDB" "postgres" "feyo" "localhost" "5432")
    (Ask (StSidebarSelectbox "Menu" menu) (fun choice =>
     if eq_str choice "Home" then home_page
     else if eq_str choice "Inventory Management" then inventory_page
     else if eq_str choice "Sales Tracking" then sales_page
     else Done VNone))).

(** * Ledgers, servers and sessions of the examples *)

(** A ledger with two items. *)
Definition pharmacy_ledger : database :=
  Database [ InventoryRow "aspirin" 10 (Decimal 200 (-2));
             InventoryRow "ibuprofen" 4 (Decimal 350 (-2)) ] [].

(** A ledger in which aspirin has been added twice. *)
Definition aspirin_added_twice : database :=
  Database [ InventoryRow "aspirin" 10 (Decimal 200 (-2));
             InventoryRow "aspirin" 2 (Decimal 200 (-2)) ] [].

(** A server for which [item = NULL] holds of no row, as in SQL. *)
Definition null_is_no_item (query : string) (vars : option value) (db : database)
    : outcome cursor * database :=
  match vars with
  | Some (VTuple [VNone]) =>
      if startswith query "SELECT" then (Ok (Some []), db) else reject_others query vars db
  | _ => reject_others query vars db
  end.

(** [psycopg2.connect] that gives a connection to the store [db], and one
    that fails. *)
Definition connects_to (db : database) : connection_parameters -> outcome database :=
  fun _ => Ok db.

Definition refuses {C : Type} : connection_parameters -> outcome C :=
  fun _ => Raise (Psycopg2Error "could not connect to server: Connection refused").

(** A run of the page in which the user picks the page [choice], the
    selectbox of the page returns [picked], the text field holds [text], the
    number field holds [n], and the buttons of [pressed] are pressed ([True]
    and [False] are the integers 1 and 0). *)
Definition session (choice : string) (picked : value) (text : string) (n : Z)
    (pressed : list string) : ui_call -> value :=
  fun call =>
    match call with
    | StSidebarSelectbox _ _ => VStr choice
    | StSelectbox _ _ => picked
    | StTextInput _ => VStr text
    | StNumberInput _ _ => VInt n
    | StButton label => if existsb (String.eqb label) pressed then VInt 1 else VInt 0
    | _ => VNone
    end.

(** * Properties *)

(** ** Python arithmetic and strings, on examples *)

Example decimal_mul_2_00_by_5 :
  mul (VDecimal (Decimal 200 (-2))) (VInt 5) = Ok (VDecimal (Decimal 1000 (-2))).
Proof. reflexivity. Qed.

Example decimal_round_half_even :
  dec_mul (Decimal 12345678901234567890123456775 0) (dec_of_int 1)
  = Decimal 1234567890123456789012345678 1.
Proof. vm_compute. reflexivity. Qed.

Example decimal_round_carry :
  dec_mul (Decimal 99999999999999999999999999995 0) (dec_of_int 1)
  = Decimal (10 ^ 27) 2.
Proof. vm_compute. reflexivity. Qed.

Example int_plus_decimal :
  add (VInt 0) (VDecimal (Decimal 1 2)) = Ok (VDecimal (Decimal 100 0)).
Proof. reflexivity. Qed.

Example strip_upper_select :
  startswith (upper (strip "  select 1 ")) "SELECT" = true
  /\ startswith "  select 1 " "SELECT" = false.
Proof. split; reflexivity. Qed.

(** ** Running programs: general facts *)

Section Run.
Context {C : Type} `{Driver C}.

(** [run] of a sequence is the sequence of the runs. *)
Lemma run_pbind {A B} (m : prog A) (f : A -> prog B) (w : world C) :
  run (pbind m f) w = bind (run m) (fun a => run (f a)) w.
Proof.
  revert w. induction m as [a|e|q p k IH|k IH|msg k IH|msg k IH]; intros w; cbn.
  - reflexivity.
  - reflexivity.
  - unfold bind. destruct (execute_query q p w) as [[v|e] w']; [apply IH | reflexivity].
  - apply IH.
  - unfold bind. cbn. apply IH.
  - unfold bind. cbn. apply IH.
Qed.

End Run.

Section Sequential.
Variable other : string -> option value -> database -> outcome cursor * database.
#[local] Hint Extern 0 (Driver database) => exact (pg other) : typeclass_instances.

Implicit Types (db : database) (clk : Z) (tr : list event) (i : string).

Lemma execute_query_select_price i db clk tr :
  execute_query "SELECT price FROM inventory WHERE item = %s" (VTuple [VStr i])
    (World (Some db) clk tr)
  = (Ok (VList ((fun r => VTuple [VDecimal (price r)]) <$> where_item i (inventory db))),
     World (Some db) clk (tr ++ price_lookup i)).
Proof. unfold price_lookup. snoc_form. reflexivity. Qed.

Lemma execute_query_select_quantity i db clk tr :
  execute_query "SELECT quantity FROM inventory WHERE item = %s" (VTuple [VStr i])
    (World (Some db) clk tr)
  = (Ok (VList ((fun r => VTuple [VInt (quantity r)]) <$> where_item i (inventory db))),
     World (Some db) clk (tr ++ quantity_lookup i)).
Proof. unfold quantity_lookup. snoc_form. reflexivity. Qed.

Lemma run_get_item_price i db clk tr :
  run (SalesManager.get_item_price (VStr i)) (World (Some db) clk tr)
  = (Ok (match first_row i db with Some r => VDecimal (price r) | None => VNone end),
     World (Some db) clk (tr ++ price_lookup i)).
Proof.
  unfold first_row. cbn. unfold bind at 1. rewrite execute_query_select_price.
  destruct (where_item i (inventory db)); reflexivity.
Qed.

Lemma run_get_current_quantity i db clk tr :
  run (SalesManager.get_current_quantity (VStr i)) (World (Some db) clk tr)
  = (Ok (match first_row i db with Some r => VInt (quantity r) | None => VInt 0 end),
     World (Some db) clk (tr ++ quantity_lookup i)).
Proof.
  unfold first_row. cbn. unfold bind at 1. rewrite execute_query_select_quantity.
  destruct (where_item i (inventory db)); reflexivity.
Qed.

Lemma add_total_numeric total d : numeric total -> numeric (add_total total d).
Proof. destruct total; cbn; tauto. Qed.

(** One line that passes: the loop goes on with the next line. *)
Lemma validate_passing_line db clk tr l r rest customer sale_date total queries :
  first_row l.1 db = Some r -> l.2 <= quantity r -> numeric total ->
  run (SalesManager.validate (request (l :: rest)) customer sale_date total queries)
      (World (Some db) clk tr)
  = run (SalesManager.validate (request rest) customer sale_date
           (add_total total (line_total r l.2))
           (queries ++ line_queries r l customer sale_date))
      (World (Some db) clk (tr ++ price_lookup l.1 ++ quantity_lookup l.1)).
Proof.
  intros Hr Hq Hn. destruct l as [i q]. cbn [request fmap list_fmap fst snd] in *.
  cbn [SalesManager.validate]. rewrite run_pbind. unfold bind at 1.
  rewrite run_get_item_price, Hr. cbn [is_None].
  rewrite run_pbind. unfold bind at 1. rewrite run_get_current_quantity, Hr.
  cbn [eval lt pbind]. replace (quantity r <? q) with false by lia.
  rewrite app_assoc.
  destruct total; cbn in Hn; try contradiction; reflexivity.
Qed.

(** One line that fails: the function returns from inside the loop. *)
Lemma validate_failing_line db clk tr l rest customer sale_date total queries :
  passes db l = false ->
  run (SalesManager.validate (request (l :: rest)) customer sale_date total queries)
      (World (Some db) clk tr)
  = (Ok (SalesManager.Returned VNone),
     World (Some db) clk (tr ++ validation_reads db l ++ [StError (validation_error db l)])).
Proof.
  unfold passes, validation_reads, validation_error.
  destruct l as [i q]. cbn [request fmap list_fmap fst snd].
  cbn [SalesManager.validate]. rewrite run_pbind. unfold bind at 1.
  rewrite run_get_item_price. destruct (first_row i db) as [r|] eqn:Hr; cbn [is_None].
  - intros Hq. rewrite run_pbind. unfold bind at 1. rewrite run_get_current_quantity, Hr.
    cbn [eval lt pbind]. replace (quantity r <? q) with true by (destruct (quantity r <? q); done).
    rewrite !app_assoc. reflexivity.
  - intros _. rewrite !app_assoc. reflexivity.
Qed.

Lemma passes_inv db l :
  passes db l = true -> exists r, first_row l.1 db = Some r /\ l.2 <= quantity r.
Proof.
  unfold passes. destruct (first_row l.1 db) as [r|]; [|done].
  intros Hq. exists r. split; [done|]. destruct (Z.ltb_spec (quantity r) l.2); [done|lia].
Qed.

(** The loop over a request whose first failing line is [l]. *)
Lemma validate_aborts db clk pre l post customer sale_date :
  forallb (passes db) pre = true -> passes db l = false ->
  forall tr total queries, numeric total ->
  run (SalesManager.validate (request (pre ++ l :: post)) customer sale_date total queries)
      (World (Some db) clk tr)
  = (Ok (SalesManager.Returned VNone),
     World (Some db) clk
       (tr ++ (pre ≫= passing_reads)
           ++ validation_reads db l ++ [StError (validation_error db l)])).
Proof.
  intros Hpre Hl. induction pre as [|l' pre IH]; intros tr total queries Hn.
  - apply validate_failing_line, Hl.
  - cbn [forallb] in Hpre. apply andb_prop in Hpre as [Hl' Hpre].
    destruct (passes_inv _ _ Hl') as (r & Hr & Hq).
    change ((l' :: pre) ++ l :: post)%list with (l' :: (pre ++ l :: post))%list.
    rewrite (validate_passing_line _ _ _ _ r) by done.
    rewrite IH by (done || by apply add_total_numeric).
    cbn [mbind list_bind]. unfold passing_reads at 2. rewrite <- !app_assoc. reflexivity.
Qed.

Lemma reads_read_only db pre l :
  forallb read_only
    ((pre ≫= passing_reads) ++ validation_reads db l) = true.
Proof.
  rewrite forallb_app. apply andb_true_intro. split.
  - induction pre as [|l' pre IH]; [done|]. cbn [mbind list_bind].
    rewrite forallb_app, IH. reflexivity.
  - unfold validation_reads. destruct (first_row l.1 db); reflexivity.
Qed.

Lemma make_sale_aborts db clk tr pre l post customer :
  forallb (passes db) pre = true -> passes db l = false ->
  aborts_without_writes other db clk tr (pre ++ l :: post) customer (validation_error db l).
Proof.
  intros Hpre Hl.
  exists ((pre ≫= passing_reads) ++ validation_reads db l).
  split; [apply reads_read_only|].
  unfold SalesManager.make_sale. cbn [datetime_now pbind run clock].
  rewrite run_pbind. unfold bind at 1.
  rewrite validate_aborts by done. rewrite <- !app_assoc. reflexivity.
Qed.

(** A request with a line that fails has a first one. *)
Lemma first_failing_line db (lines : list (string * Z)) l0 :
  l0 ∈ lines -> passes db l0 = false ->
  exists pre l post, lines = (pre ++ l :: post)%list /\
    forallb (passes db) pre = true /\ passes db l = false.
Proof.
  induction lines as [|l' lines IH]; intros Hin Hl0; [by apply elem_of_nil in Hin|].
  destruct (passes db l') eqn:Hl'.
  - apply elem_of_cons in Hin as [->|Hin]; [congruence|].
    destruct (IH Hin Hl0) as (pre & l & post & -> & Hpre & Hl).
    exists (l' :: pre), l, post. cbn [forallb]. rewrite Hl', Hpre. done.
  - exists [], l', lines. done.
Qed.

(** The first failing line of a request is determined. *)
Lemma first_failing_unique db (pre : list (string * Z)) l post pre0 l0 post0 :
  pre ++ l :: post = pre0 ++ l0 :: post0 ->
  forallb (passes db) pre = true -> passes db l = false ->
  forallb (passes db) pre0 = true -> passes db l0 = false ->
  pre = pre0 /\ l = l0.
Proof.
  revert pre0. induction pre as [|x pre IH]; intros [|x0 pre0] Heq Hp Hl Hp0 Hl0;
    cbn [app forallb] in *.
  - by injection Heq as -> _.
  - injection Heq as -> _. apply andb_prop in Hp0 as [? _]. congruence.
  - injection Heq as -> _. apply andb_prop in Hp as [? _]. congruence.
  - injection Heq as -> Heq. apply andb_prop in Hp as [_ Hp]. apply andb_prop in Hp0 as [_ Hp0].
    destruct (IH pre0 Heq Hp Hl Hp0 Hl0) as [-> ->]. done.
Qed.

(** *** The statements that write, and the listing *)

Lemma execute_query_insert_sales i q d c t db clk tr :
  let query := "INSERT INTO sales (item, quantity, price, customer, sale_date) VALUES (%s,%s,%s,%s,%s)" in
  let params := VTuple [VStr i; VInt q; VDecimal d; VStr c; VDatetime t] in
  execute_query query params (World (Some db) clk tr)
  = (Ok VNone,
     World (Some (Database (inventory db) (sales db ++ [SalesRow i q d c t]))) clk
       (tr ++ [CursorExecute query (Some params); ConnectionCommit])).
Proof. cbv zeta. snoc_form. reflexivity. Qed.

Lemma execute_query_update i q db clk tr :
  let query := "UPDATE inventory SET quantity = quantity - %s WHERE item = %s" in
  let params := VTuple [VInt q; VStr i] in
  execute_query query params (World (Some db) clk tr)
  = (Ok VNone,
     World (Some (Database (decrement q i <$> inventory db) (sales db))) clk
       (tr ++ [CursorExecute query (Some params); ConnectionCommit])).
Proof. cbv zeta. snoc_form. reflexivity. Qed.


Lemma execute_query_select_all db clk tr :
  let query := "SELECT item, quantity, price FROM inventory" in
  execute_query query VNone (World (Some db) clk tr)
  = (Ok (VList (triple <$> inventory db)),
     World (Some db) clk (tr ++ [CursorExecute query None; CursorFetchall])).
Proof. cbv zeta. snoc_form. reflexivity. Qed.

Lemma truthy_or_empty (l : list value) :
  (if truthy (VList l) then VList l else VList []) = VList l.
Proof. by destruct l. Qed.

Lemma run_get_items_in_inventory_2 db clk tr :
  run InventoryManager.get_items_in_inventory_2 (World (Some db) clk tr)
  = (Ok (VList (triple <$> inventory db)),
     World (Some db) clk
       (tr ++ [CursorExecute "SELECT item, quantity, price FROM inventory" None;
               CursorFetchall])).
Proof.
  cbn [InventoryManager.get_items_in_inventory_2 db_execute_query pbind run].
  unfold bind at 1. rewrite execute_query_select_all. by rewrite truthy_or_empty.
Qed.

Lemma item_decrement q i r : item (decrement q i r) = item r.
Proof. unfold decrement. by destruct (decide (item r = i)). Qed.

Lemma where_item_decrement q i (rows : list inventory_row) :
  where_item i (decrement q i <$> rows) = decrement q i <$> where_item i rows.
Proof.
  unfold where_item. induction rows as [|r rows IH]; [done|].
  cbn [fmap list_fmap]. rewrite !filter_cons, IH, item_decrement.
  by destruct (decide (item r = i)).
Qed.

Lemma first_row_decrement q i db r (s : list sales_row) :
  first_row i db = Some r ->
  first_row i (Database (decrement q i <$> inventory db) s)
  = Some (InventoryRow (item r) (quantity r - q) (price r)).
Proof.
  unfold first_row. cbn [inventory]. rewrite where_item_decrement.
  destruct (where_item i (inventory db)) as [|r' rows] eqn:Hw; [done|].
  cbn. intros [= ->]. unfold decrement.
  assert (r ∈ where_item i (inventory db)) as Hin by (rewrite Hw; left).
  apply list_elem_of_filter in Hin as [Hi _]. by rewrite decide_True.
Qed.

(** A sale of one line that passes validation: the record is inserted,
    then the stock is decremented, then success is reported. *)
Lemma make_sale_one_line db clk tr i q c r :
  first_row i db = Some r -> q <= quantity r ->
  run (SalesManager.make_sale [(VStr i, VInt q)] (VStr c)) (World (Some db) clk tr)
  = (Ok VNone,
     World (Some (Database (decrement q i <$> inventory db)
                    (sales db ++ [SalesRow i q (line_total r q) c clk])))
       clk
       (tr ++ price_lookup i ++ quantity_lookup i ++
          [ CursorExecute
              "INSERT INTO sales (item, quantity, price, customer, sale_date) VALUES (%s,%s,%s,%s,%s)"
              (Some (VTuple [VStr i; VInt q; VDecimal (line_total r q); VStr c; VDatetime clk]));
            ConnectionCommit;
            CursorExecute "UPDATE inventory SET quantity = quantity - %s WHERE item = %s"
              (Some (VTuple [VInt q; VStr i]));
            ConnectionCommit;
            StSuccess (sale_recorded (add_total (VInt 0) (line_total r q))) ])).
Proof.
  intros Hr Hq.
  unfold SalesManager.make_sale. cbn [datetime_now pbind run clock].
  rewrite run_pbind. unfold bind at 1.
  change [(VStr i, VInt q)] with (request [(i, q)]).
  rewrite (validate_passing_line db clk tr (i, q) r) by done.
  cbn [request fmap list_fmap SalesManager.validate run ret app line_queries fst snd
       SalesManager.apply_queries db_execute_query pbind st_success_].
  unfold bind at 1. rewrite execute_query_insert_sales.
  unfold bind at 1. rewrite execute_query_update.
  unfold bind, st_success, emit, ret. cbn [trace conn clock inventory sales].
  rewrite <- !app_assoc. reflexivity.
Qed.

End Sequential.

(** * The sale processor and the ledger: properties *)

Section Ledger.
Variable other : string -> option value -> database -> outcome cursor * database.
#[local] Hint Extern 0 (Driver database) => exact (pg other) : typeclass_instances.

(** C1: on a ledger in which aspirin has quantity 10 and unit price 2.00,
    [make_sale({"aspirin": 5}, "Alice")] reports success with the total
    10.00, inserts exactly one sales record (aspirin, 5, 10.00, Alice) and
    leaves the quantity of aspirin at 5. *)
Theorem make_sale_aspirin_alice (db : database) (clk : Z) (tr : list event) (r : inventory_row) :
  first_row "aspirin" db = Some r -> quantity r = 10 -> price r = Decimal 200 (-2) ->
  let db' := Database (decrement 5 "aspirin" <$> inventory db)
               (sales db ++ [SalesRow "aspirin" 5 (Decimal 1000 (-2)) "Alice" clk]) in
  run (SalesManager.make_sale [(VStr "aspirin", VInt 5)] (VStr "Alice")) (World (Some db) clk tr)
  = (Ok VNone,
     World (Some db') clk
       (tr ++ price_lookup "aspirin" ++ quantity_lookup "aspirin" ++
          [ CursorExecute
              "INSERT INTO sales (item, quantity, price, customer, sale_date) VALUES (%s,%s,%s,%s,%s)"
              (Some (VTuple [VStr "aspirin"; VInt 5; VDecimal (Decimal 1000 (-2));
                             VStr "Alice"; VDatetime clk]));
            ConnectionCommit;
            CursorExecute "UPDATE inventory SET quantity = quantity - %s WHERE item = %s"
              (Some (VTuple [VInt 5; VStr "aspirin"]));
            ConnectionCommit;
            StSuccess (sale_recorded (VDecimal (Decimal 1000 (-2)))) ]))
  /\ first_row "aspirin" db' = Some (InventoryRow (item r) 5 (Decimal 200 (-2)))
  /\ fst (run (SalesManager.get_current_quantity (VStr "aspirin")) (World (Some db') clk tr))
     = Ok (VInt 5).
Proof.
  intros Hr Hq Hp db'.
  assert (first_row "aspirin" db' = Some (InventoryRow (item r) 5 (Decimal 200 (-2)))) as Hr'.
  { unfold db'. rewrite (first_row_decrement 5 "aspirin" db r _ Hr), Hq, Hp. reflexivity. }
  split; [|split; [exact Hr'|]].
  - rewrite (make_sale_one_line other db clk tr "aspirin" 5 "Alice" r Hr) by lia.
    unfold line_total. rewrite Hp. reflexivity.
  - rewrite run_get_current_quantity, Hr'. reflexivity.
Qed.

(** C4: for an item name that no row of the inventory has,
    [get_current_quantity] returns 0 and [get_item_price] returns [None];
    for an item that has a row, [get_item_price] returns the price of its
    first row, a [Decimal] and not [None], also when that price is zero. *)
Theorem absent_item_quantity_and_price (db : database) (clk : Z) (tr : list event) (i : string) :
  (forall r, r ∈ inventory db -> item r <> i) ->
  run (SalesManager.get_current_quantity (VStr i)) (World (Some db) clk tr)
  = (Ok (VInt 0), World (Some db) clk (tr ++ quantity_lookup i))
  /\ run (SalesManager.get_item_price (VStr i)) (World (Some db) clk tr)
     = (Ok VNone, World (Some db) clk (tr ++ price_lookup i))
  /\ forall j r, first_row j db = Some r ->
       run (SalesManager.get_item_price (VStr j)) (World (Some db) clk tr)
       = (Ok (VDecimal (price r)), World (Some db) clk (tr ++ price_lookup j))
       /\ VDecimal (price r) <> VNone.
Proof.
  intros Habsent.
  assert (first_row i db = None) as Hnone.
  { unfold first_row, where_item. destruct (filter _ _) as [|r rows] eqn:Hf; [done|].
    assert (r ∈ filter (fun r => item r = i) (inventory db)) as Hin by (rewrite Hf; left).
    apply list_elem_of_filter in Hin as [Hi Hin]. by destruct (Habsent r Hin). }
  split; [|split].
  - by rewrite run_get_current_quantity, Hnone.
  - by rewrite run_get_item_price, Hnone.
  - intros j r Hr. split; [|done]. by rewrite run_get_item_price, Hr.
Qed.


(** C2, as amended: a request with a line that asks for more than the
    current quantity of its item is aborted without any write, for any line;
    the error shown is that of the first line, in the order of the request,
    that fails validation: the insufficient-stock message with the available
    quantity when the item of that line has a row. *)
Theorem insufficient_stock_aborts (db : database) (clk : Z) (tr : list event)
    (lines : list (string * Z)) (customer : value) (i : string) (q : Z) :
  (i, q) ∈ lines -> current_quantity db i < q ->
  exists pre l post,
    lines = pre ++ l :: post /\ forallb (passes db) pre = true /\ passes db l = false /\
    aborts_without_writes other db clk tr lines customer (validation_error db l) /\
    forall r, first_row l.1 db = Some r ->
      validation_error db l = insufficient_stock_error l.1 (quantity r) /\ quantity r < l.2.
Proof.
  intros Hin Hq.
  assert (passes db (i, q) = false) as Hfail.
  { unfold passes, current_quantity in *. cbn [fst snd].
    destruct (first_row i db) as [r|]; [|done].
    destruct (Z.ltb_spec (quantity r) q); [done|lia]. }
  destruct (first_failing_line db lines (i, q) Hin Hfail) as (pre & l & post & -> & Hpre & Hl).
  exists pre, l, post. repeat split; try done.
  - by apply make_sale_aborts.
  - unfold validation_error. by rewrite H.
  - unfold passes in Hl. rewrite H in Hl. destruct (Z.ltb_spec (quantity r) l.2); [done|done].
Qed.

(** C3, as amended: a request with a line whose item has no price is
    aborted without any write, for any line; the error shown is that of the
    first line, in the order of the request, that fails validation: the
    unknown-item message naming the item when the item of that line has no
    row. *)
Theorem unknown_item_aborts (db : database) (clk : Z) (tr : list event)
    (lines : list (string * Z)) (customer : value) (i : string) (q : Z) :
  (i, q) ∈ lines -> first_row i db = None ->
  exists pre l post,
    lines = pre ++ l :: post /\ forallb (passes db) pre = true /\ passes db l = false /\
    aborts_without_writes other db clk tr lines customer (validation_error db l) /\
    (first_row l.1 db = None -> validation_error db l = unknown_item_error l.1) /\
    (forall pre0 post0, lines = pre0 ++ (i, q) :: post0 ->
       forallb (passes db) pre0 = true -> l = (i, q)).
Proof.
  intros Hin Hnone.
  assert (passes db (i, q) = false) as Hfail.
  { unfold passes. cbn [fst]. by rewrite Hnone. }
  destruct (first_failing_line db lines (i, q) Hin Hfail) as (pre & l & post & -> & Hpre & Hl).
  exists pre, l, post. repeat split; try done.
  - by apply make_sale_aborts.
  - intros Hl'. unfold validation_error. by rewrite Hl'.
  - intros pre0 post0 Heq Hpre0.
    by destruct (first_failing_unique db pre l post pre0 (i, q) post0) as [_ ?].
Qed.

(** C9: [make_sale] with an empty dict makes no call to the gateway, so
    neither a lookup nor a write, and reports success with the total 0,
    whatever the customer and the state of the connection. *)
Theorem make_sale_empty_request {C : Type} `{Driver C} (w : world C) (customer : value) :
  run (SalesManager.make_sale [] customer) w
  = (Ok VNone, World (conn w) (clock w) (trace w ++ [StSuccess (sale_recorded (VInt 0))])).
Proof. reflexivity. Qed.

End Ledger.

(** * The gateway: properties *)

Section Gateway.
Context {C : Type} `{Driver C}.

Lemma prefix_cons (a : ascii) (p s : string) :
  String.prefix (String a p) (String a s) = String.prefix p s.
Proof. cbn [String.prefix]. by destruct (ascii_dec a a). Qed.

Lemma prefix_rstrip (p s : string) :
  String.prefix p s = true ->
  forallb (fun c => negb (isspace c)) (list_ascii_of_string p) = true ->
  String.prefix p (rstrip s) = true.
Proof.
  revert s. induction p as [|a p IH]; intros s Hp Hns; [by destruct (rstrip s)|].
  destruct s as [|b s]; [done|]. cbn [String.prefix] in Hp.
  destruct (ascii_dec a b) as [<-|]; [|done].
  cbn [list_ascii_of_string forallb] in Hns. apply andb_prop in Hns as [Ha Hns].
  specialize (IH s Hp Hns). cbn [rstrip].
  destruct (rstrip s) as [|c t] eqn:Hr.
  - destruct p; [|done]. apply negb_true_iff in Ha. rewrite Ha.
    by rewrite prefix_cons.
  - by rewrite prefix_cons.
Qed.

Lemma prefix_upper (p s : string) :
  String.prefix p s = true -> String.prefix (upper p) (upper s) = true.
Proof.
  revert s. induction p as [|a p IH]; intros s Hp; [by destruct s|].
  destruct s as [|b s]; [done|]. cbn [String.prefix] in Hp.
  destruct (ascii_dec a b) as [<-|]; [|done].
  cbn [upper]. rewrite prefix_cons. by apply IH.
Qed.

(** A statement that starts with [p], a word without blanks, still
    starts with it, in capitals, after [strip] and [upper]. *)
Lemma startswith_strip_upper (p query : string) :
  startswith (lstrip query) p = true ->
  forallb (fun c => negb (isspace c)) (list_ascii_of_string p) = true ->
  startswith (upper (strip query)) (upper p) = true.
Proof.
  unfold startswith, strip. intros Hp Hns. by apply prefix_upper, prefix_rstrip.
Qed.

Lemma lstrip_no_blank (query : string) c rest :
  query = String c rest -> isspace c = false -> lstrip query = query.
Proof. intros -> Hc. cbn. by rewrite Hc. Qed.


Lemma execute_query_body (query : string) (params : value) (c : C) (clk : Z) (tr : list event) :
  execute_query query params (World (Some c) clk tr)
  = let tr1 := tr ++ [CursorExecute query (vars_of params)] in
    match cursor_execute query (vars_of params) c with
    | (Ok cur, c1) =>
        let '(committed, c2, tr2) :=
          if negb (startswith query "SELECT")
          then let '(r, c2) := connection_commit c1 in (r, c2, tr1 ++ [ConnectionCommit])
          else (Ok tt, c1, tr1) in
        match committed with
        | Ok _ =>
            if startswith (upper (strip query)) "SELECT"
            then match cursor_fetchall cur with
                 | Ok rows => (Ok rows, World (Some c2) clk (tr2 ++ [CursorFetchall]))
                 | Raise e =>
                     (Ok VNone,
                      World (Some c2) clk
                        ((tr2 ++ [CursorFetchall])
                           ++ [StError [Lit "Error executing query: "; FieldExn e]]))
                 end
            else (Ok VNone, World (Some c2) clk tr2)
        | Raise e =>
            if is_psycopg2_Error e
            then (Ok VNone,
                  World (Some c2) clk
                    (tr2 ++ [StError [Lit "Error executing query: "; FieldExn e]]))
            else (Raise e, World (Some c2) clk tr2)
        end
    | (Raise e, c1) =>
        if is_psycopg2_Error e
        then (Ok VNone,
              World (Some c1) clk
                (tr1 ++ [StError [Lit "Error executing query: "; FieldExn e]]))
        else (Raise e, World (Some c1) clk tr1)
    end.
Proof.
  unfold execute_query, vars_of, try_except, bind, conn_cursor, call_cursor_execute,
    call_commit, call_fetchall, on_conn, emit, st_error, ret, raise, bind.
  destruct (truthy params), (startswith query "SELECT"),
    (startswith (upper (strip query)) "SELECT"); simpl;
    (destruct (cursor_execute query _ c) as [[cur|e] c1]; simpl; [|by destruct e]);
    try (destruct (connection_commit c1) as [[[]|e] c2]; simpl; [|by destruct e]);
    try done; by destruct cur.
Qed.

(** A call keeps the connection and the clock. *)
Lemma execute_query_world (query : string) (params : value) (c : C) (clk : Z) (tr : list event) :
  exists c' tr', snd (execute_query query params (World (Some c) clk tr)) = World (Some c') clk tr'.
Proof.
  rewrite execute_query_body. cbv zeta.
  destruct (cursor_execute query (vars_of params) c) as [[cur|e] c1];
    [|destruct (is_psycopg2_Error e); cbn; eauto].
  destruct (negb (startswith query "SELECT")).
  - destruct (connection_commit c1) as [[[]|e] c2];
      [|destruct (is_psycopg2_Error e); cbn; eauto].
    destruct (startswith (upper (strip query)) "SELECT");
      [destruct (cursor_fetchall cur)|]; cbn; eauto.
  - destruct (startswith (upper (strip query)) "SELECT");
      [destruct (cursor_fetchall cur)|]; cbn; eauto.
Qed.

Lemma startswith_SELECT_strip_upper (query : string) :
  startswith query "SELECT" = true -> startswith (upper (strip query)) "SELECT" = true.
Proof.
  intros Hs. apply (startswith_strip_upper "SELECT"); [|done].
  destruct query as [|c rest]; [done|].
  rewrite (lstrip_no_blank _ c rest); [done..|].
  unfold startswith in Hs. cbn [String.prefix] in Hs.
  by destruct (ascii_dec "S" c) as [<-|].
Qed.



End Gateway.

(** C8: the name [get_items_in_inventory] is bound, in the namespace of the
    class, to the second definition, the one that selects the three
    columns; no name is bound to the first, one-column definition; a call
    returns the triple (item, quantity, price) of every row of the
    inventory, the empty list when there is none. *)
Theorem get_items_in_inventory_resolves :
  InventoryManager.namespace !! "get_items_in_inventory"
  = Some (Def0 InventoryManager.get_items_in_inventory_2)
  /\ (forall name, InventoryManager.namespace !! name
                   <> Some (Def0 InventoryManager.get_items_in_inventory_1))
  /\ InventoryManager.get_items_in_inventory = InventoryManager.get_items_in_inventory_2
  /\ forall other db clk tr,
       run (H := pg other) InventoryManager.get_items_in_inventory (World (Some db) clk tr)
       = (Ok (VList (triple <$> inventory db)),
          World (Some db) clk
            (tr ++ [CursorExecute "SELECT item, quantity, price FROM inventory" None;
                    CursorFetchall])).
Proof.
  assert (InventoryManager.namespace !! "get_items_in_inventory"
          = Some (Def0 InventoryManager.get_items_in_inventory_2)) as Hns
    by (vm_compute; reflexivity).
  assert (InventoryManager.get_items_in_inventory = InventoryManager.get_items_in_inventory_2)
    as Heq by (unfold InventoryManager.get_items_in_inventory; by rewrite Hns).
  split; [exact Hns|split; [|split; [exact Heq|]]].
  - intros name.
    unfold InventoryManager.namespace, class_namespace, InventoryManager.body. cbn [foldl fst snd].
    rewrite !lookup_insert. repeat case_decide; discriminate.
  - intros other db clk tr. rewrite Heq. apply run_get_items_in_inventory_2.
Qed.

Section ConcurrentSales.
Variable other : string -> option value -> database -> outcome cursor * database.
#[local] Hint Extern 0 (Driver database) => exact (pg other) : typeclass_instances.
Variables (i : string) (p : decimal) (clk : Z).

Local Abbreviation answer := (Stages.answer p clk).
Local Abbreviation stage := (Stages.stage i p clk).
Local Abbreviation sale_events := (Stages.sale_events i p clk).
Local Abbreviation events_after := Stages.events_after.
Local Abbreviation thread_at := (Stages.thread_at i p clk).
Local Abbreviation store_after := (Stages.store_after i p clk).
Local Abbreviation system_of := (Stages.system_of i p clk).
Local Abbreviation updated := Stages.updated.
Local Abbreviation updates := Stages.updates.
Local Abbreviation steps_done := Stages.steps_done.
Local Abbreviation stock_invariant := (Stages.stock_invariant i p).

(** A step of a session is a step of its sequential run: what is left to
    run after the step gives the result of the whole run. *)
Lemma thread_step_run (db db' : database) (t t' : thread) :
  thread_step other db clk t = Some (db', t') ->
  run (code t) (World (Some db) clk (seen t)) = run (code t') (World (Some db') clk (seen t')).
Proof.
  unfold thread_step. destruct t as [m tr]. cbn [code seen].
  destruct m as [a|e|q params k|k|msg k|msg k]; try done.
  - destruct (execute_query_world (H := pg other) q params db clk tr) as (c' & tr' & Hw).
    cbn [run]. unfold bind at 1.
    destruct (execute_query q params (World (Some db) clk tr)) as [r w] eqn:Hq.
    cbn [snd] in Hw. subst w. cbn [conn trace default]. intros [= <- <-]. cbn [code seen].
    by destruct r.
  - by intros [= <- <-].
  - by intros [= <- <-].
  - by intros [= <- <-].
Qed.

Lemma thread_step_stage (db : database) (c : string) (pc : nat) (r : inventory_row) :
  first_row i db = Some r -> price r = p -> (pc = 2%nat -> 1 <= quantity r) -> (pc < 6)%nat ->
  thread_step other db clk (thread_at (c, pc))
  = Some (store_after (c, pc) db, thread_at (c, S pc)).
Proof.
  intros Hr Hp Hq Hpc. unfold first_row in Hr.
  destruct (where_item i (inventory db)) as [|r' rows] eqn:Hw; [done|].
  cbn in Hr. injection Hr as ->.
  destruct pc as [|[|[|[|[|[|pc]]]]]]; [..|lia]; unfold thread_at, thread_step, store_after;
    lazy -[dec_mul dec_add execute_query pg fmap where_item quantity].
  - reflexivity.
  - rewrite execute_query_select_price, Hw. cbn [fmap list_fmap]. rewrite Hp. reflexivity.
  - rewrite execute_query_select_quantity, Hw. cbn [fmap list_fmap].
    lazy -[dec_mul dec_add quantity]. specialize (Hq eq_refl).
    destruct (quantity r) as [|[q|q|]|q]; try lia; reflexivity.
  - rewrite execute_query_insert_sales. reflexivity.
  - rewrite execute_query_update. reflexivity.
  - reflexivity.
Qed.

Lemma sum_list_with_insert {A} (f : A -> nat) (l : list A) (n : nat) (x y : A) :
  l !! n = Some x ->
  (sum_list_with f (<[n := y]> l) + f x = sum_list_with f l + f y)%nat.
Proof.
  revert n. induction l as [|a l IH]; intros [|n] Hl; try done; simpl in *.
  - injection Hl as ->. lia.
  - specialize (IH n Hl). lia.
Qed.

Lemma updates_le (cps : list (string * nat)) : (updates cps <= List.length cps)%nat.
Proof.
  unfold updates. induction cps as [|cp cps IH]; simpl; [lia|].
  unfold updated at 1. destruct (decide _); lia.
Qed.

Lemma updates_lt (cps : list (string * nat)) n c pc :
  cps !! n = Some (c, pc) -> (pc < 5)%nat -> (updates cps < List.length cps)%nat.
Proof.
  unfold updates. revert n. induction cps as [|cp cps IH]; intros [|n] Hl Hpc; try done; simpl in *.
  - injection Hl as ->. unfold updated at 1. simpl. rewrite decide_False by lia.
    pose proof (updates_le cps). unfold updates in *. lia.
  - specialize (IH n Hl Hpc). unfold updated at 1. destruct (decide _); lia.
Qed.

Lemma steps_done_le (cps : list (string * nat)) :
  Forall (fun cp => (cp.2 <= 6)%nat) cps -> (steps_done cps <= 6 * List.length cps)%nat.
Proof.
  unfold steps_done. induction 1 as [|cp cps Hcp _ IH]; simpl; lia.
Qed.

(** When every session has made six steps, every session has updated. *)
Lemma steps_done_all (cps : list (string * nat)) :
  Forall (fun cp => (cp.2 <= 6)%nat) cps -> steps_done cps = (6 * List.length cps)%nat ->
  Forall (fun cp => cp.2 = 6%nat) cps /\ updates cps = List.length cps.
Proof.
  unfold steps_done, updates. induction 1 as [|cp cps Hcp Hall IH]; simpl; [done|].
  intros Hsum. pose proof (steps_done_le cps Hall) as Hle. unfold steps_done in Hle.
  assert (cp.2 = 6%nat) as Hcp6 by lia.
  destruct IH as [IH1 IH2]; [lia|]. split; [by constructor|].
  unfold updated at 1. rewrite decide_True by lia. lia.
Qed.

(** Before that, some session has a step left. *)
Lemma steps_done_some (cps : list (string * nat)) :
  Forall (fun cp => (cp.2 <= 6)%nat) cps -> (steps_done cps < 6 * List.length cps)%nat ->
  exists n c pc, cps !! n = Some (c, pc) /\ (pc < 6)%nat.
Proof.
  unfold steps_done. induction 1 as [|[c pc] cps Hcp Hall IH]; simpl in *; [lia|].
  intros Hsum. destruct (decide (pc < 6)%nat) as [Hpc|Hpc].
  - by exists 0%nat, c, pc.
  - destruct IH as (n & c' & pc' & Hl & Hpc'); [lia|]. by exists (S n), c', pc'.
Qed.

Lemma first_row_store_after (db : database) (c : string) (pc : nat) (r : inventory_row) :
  first_row i db = Some r ->
  first_row i (store_after (c, pc) db)
  = Some (if decide (pc = 4%nat) then InventoryRow (item r) (quantity r - 1) (price r) else r).
Proof.
  intros Hr. unfold store_after. cbn [snd fst].
  destruct (decide (pc = 4%nat)) as [->|Hne].
  - by apply first_row_decrement.
  - destruct pc as [|[|[|[|[|pc]]]]]; done.
Qed.

(** A step of the system is a step of one session that has one left, and
    keeps the invariant. *)
Lemma step_at_invariant (N : nat) (db : database) (cps : list (string * nat)) n s' :
  stock_invariant N db cps ->
  step_at other n (system_of db cps) = Some s' ->
  exists c pc,
    cps !! n = Some (c, pc) /\ (pc < 6)%nat /\
    s' = system_of (store_after (c, pc) db) (<[n := (c, S pc)]> cps) /\
    stock_invariant N (store_after (c, pc) db) (<[n := (c, S pc)]> cps) /\
    steps_done (<[n := (c, S pc)]> cps) = S (steps_done cps).
Proof.
  intros (Hlen & Hall & r & Hr & Hp & Hq). unfold step_at, system_of.
  cbn [threads store now]. rewrite list_lookup_fmap.
  destruct (cps !! n) as [[c pc]|] eqn:Hl; [|done]. cbn [fmap option_fmap option_map].
  assert (pc <= 6)%nat as Hpc6 by (by apply (Forall_lookup_1 _ _ _ _ Hall Hl)).
  destruct (decide (pc = 6%nat)) as [->|Hne]; [done|].
  assert (pc = 2%nat -> 1 <= quantity r) as Hstock.
  { intros ->. pose proof (updates_lt cps n c 2 Hl). lia. }
  rewrite (thread_step_stage db c pc r Hr Hp Hstock) by lia.
  intros [= <-]. exists c, pc. split; [done|]. split; [lia|].
  split; [by rewrite list_fmap_insert|].
  pose proof (sum_list_with_insert updated cps n (c, pc) (c, S pc) Hl) as Hu.
  pose proof (sum_list_with_insert snd cps n (c, pc) (c, S pc) Hl) as Hs.
  cbn [snd] in Hs. split; [|unfold steps_done; lia].
  split; [by rewrite length_insert|]. split.
  { apply Forall_insert; [done|]. cbn. lia. }
  rewrite (first_row_store_after db c pc r Hr). eexists. split; [done|].
  unfold updates in *.
  assert (updated (c, S pc)
          = (updated (c, pc) + (if decide (pc = 4%nat) then 1 else 0))%nat) as Hupd.
  { unfold updated. cbn [snd]. repeat case_decide; lia. }
  destruct (decide (pc = 4%nat)) as [->|Hpc4]; cbn [price quantity]; (split; [done|]); lia.
Qed.

Lemma run_schedule_invariant (N : nat) (schedule : list nat) :
  forall db cps s',
    stock_invariant N db cps ->
    run_schedule other schedule (system_of db cps) = Some s' ->
    exists db' cps',
      s' = system_of db' cps' /\ stock_invariant N db' cps' /\
      steps_done cps' = (steps_done cps + List.length schedule)%nat.
Proof.
  induction schedule as [|n rest IH]; intros db cps s' Hinv Hrun; cbn in Hrun.
  - injection Hrun as <-. exists db, cps. cbn. split; [done|]. split; [done|lia].
  - destruct (step_at other n (system_of db cps)) as [s1|] eqn:Hstep; [|done].
    destruct (step_at_invariant N db cps n s1 Hinv Hstep)
      as (c & pc & _ & _ & -> & Hinv1 & Hsteps).
    destruct (IH _ _ _ Hinv1 Hrun) as (db' & cps' & -> & Hinv' & Hsteps').
    exists db', cps'. split; [done|]. split; [done|]. cbn. lia.
Qed.

Lemma step_at_enabled (N : nat) (db : database) (cps : list (string * nat)) n c pc :
  stock_invariant N db cps -> cps !! n = Some (c, pc) -> (pc < 6)%nat ->
  step_at other n (system_of db cps)
  = Some (system_of (store_after (c, pc) db) (<[n := (c, S pc)]> cps)).
Proof.
  intros (Hlen & Hall & r & Hr & Hp & Hq) Hl Hpc. unfold step_at, system_of.
  cbn [threads store now]. rewrite list_lookup_fmap, Hl. cbn [fmap option_fmap option_map].
  assert (pc = 2%nat -> 1 <= quantity r) as Hstock.
  { intros ->. pose proof (updates_lt cps n c 2 Hl). lia. }
  rewrite (thread_step_stage db c pc r Hr Hp Hstock) by lia.
  by rewrite list_fmap_insert.
Qed.

Lemma sessions_system_of (db : database) (customers : list string) :
  System db clk (sessions i customers) = system_of db ((fun c => (c, 0%nat)) <$> customers).
Proof.
  unfold system_of, sessions. f_equal. rewrite <- list_fmap_compose.
  by apply list_fmap_ext.
Qed.

Lemma stock_invariant_start (db : database) (customers : list string) (r : inventory_row) :
  first_row i db = Some r -> price r = p -> quantity r = Z.of_nat (List.length customers) ->
  stock_invariant (List.length customers) db ((fun c => (c, 0%nat)) <$> customers)
  /\ steps_done ((fun c => (c, 0%nat)) <$> customers) = 0%nat.
Proof.
  intros Hr Hp Hq.
  assert (updates ((fun c => (c, 0%nat)) <$> customers) = 0%nat
          /\ steps_done ((fun c => (c, 0%nat)) <$> customers) = 0%nat) as [Hu Hs].
  { clear Hq. unfold updates, steps_done. induction customers as [|c cs IH]; [done|].
    destruct IH as [IH1 IH2]. cbn [fmap list_fmap sum_list_with]. fold (@fmap list _).
    split; [|simpl; exact IH2]. unfold updated at 1. cbn [snd].
    rewrite decide_False by lia. exact IH1. }
  split; [|done]. split; [by rewrite length_fmap|]. split.
  - apply Forall_fmap, Forall_forall. intros c _. cbn. lia.
  - exists r. rewrite Hu. split; [done|]. split; [done|lia].
Qed.

Lemma thread_at_done (c : string) : succeeded (thread_at (c, 6%nat)).
Proof.
  split; [reflexivity|].
  eexists. unfold thread_at. cbn [fst snd seen events_after].
  unfold sale_events, price_lookup, quantity_lookup. reflexivity.
Qed.

(** From a state of the invariant, the sessions can be run to their
    end. *)
Lemma complete_schedule (N : nat) (k : nat) :
  forall db cps,
    stock_invariant N db cps -> (steps_done cps + k = 6 * N)%nat ->
    exists schedule s',
      List.length schedule = k /\ run_schedule other schedule (system_of db cps) = Some s'.
Proof.
  induction k as [|k IH]; intros db cps Hinv Hk.
  - exists [], (system_of db cps). done.
  - pose proof Hinv as (Hlen & Hall & _).
    destruct (steps_done_some cps Hall) as (n & c & pc & Hl & Hpc); [lia|].
    pose proof (step_at_enabled N db cps n c pc Hinv Hl Hpc) as Hstep.
    destruct (step_at_invariant N db cps n _ Hinv Hstep)
      as (c' & pc' & Hl' & _ & _ & Hinv1 & Hsteps).
    rewrite Hl in Hl'. injection Hl' as <- <-.
    destruct (IH _ _ Hinv1) as (schedule & s' & Hlen' & Hrun); [lia|].
    exists (n :: schedule), s'. cbn. rewrite Hstep. split; [lia|done].
Qed.

(** The sales of one unit each by as many customers as the item has
    units, under any schedule. *)
Lemma concurrent_sales (customers : list string) (db : database) (r : inventory_row)
    (schedule : list nat) (s : system) :
  let N := List.length customers in
  first_row i db = Some r -> price r = p -> quantity r = Z.of_nat N ->
  run_schedule other schedule (System db clk (sessions i customers)) = Some s ->
  (List.length schedule <= 6 * N)%nat
  /\ 0 <= current_quantity (store s) i
  /\ ((List.length schedule < 6 * N)%nat -> exists s', step other s s')
  /\ (List.length schedule = (6 * N)%nat ->
      Forall succeeded (threads s) /\ current_quantity (store s) i = 0
      /\ forall n, step_at other n s = None).
Proof.
  intros N Hr Hp Hq Hrun. rewrite sessions_system_of in Hrun.
  destruct (stock_invariant_start db customers r Hr Hp Hq) as [Hinv0 Hs0].
  destruct (run_schedule_invariant N schedule _ _ _ Hinv0 Hrun)
    as (db' & cps & -> & Hinv & Hsteps).
  rewrite Hs0 in Hsteps. cbn [Nat.add] in Hsteps.
  pose proof Hinv as (Hlen & Hall & r' & Hr' & Hp' & Hq').
  pose proof (steps_done_le cps Hall) as Hle. pose proof (updates_le cps) as Hule.
  unfold current_quantity. cbn [store threads system_of]. rewrite Hr'.
  split; [lia|]. split; [lia|]. split.
  - intros Hlt. destruct (steps_done_some cps Hall) as (n & c & pc & Hl & Hpc); [lia|].
    eexists. exists n. by apply (step_at_enabled N db' cps n c pc).
  - intros Heq. destruct (steps_done_all cps Hall) as [Hall6 Hu]; [lia|].
    split; [|split; [lia|]].
    + apply Forall_fmap. eapply Forall_impl; [exact Hall6|].
      intros [c pc] Hpc. cbn in Hpc. subst pc. apply thread_at_done.
    + intros n. unfold step_at, system_of. cbn [threads store now].
      rewrite list_lookup_fmap.
      destruct (cps !! n) as [[c pc]|] eqn:Hl; [|done].
      assert (pc = 6%nat) as -> by (by apply (Forall_lookup_1 _ _ _ _ Hall6 Hl)).
      reflexivity.
Qed.

Lemma concurrent_sales_complete (customers : list string) (db : database) (r : inventory_row) :
  let N := List.length customers in
  first_row i db = Some r -> price r = p -> quantity r = Z.of_nat N ->
  exists schedule s,
    List.length schedule = (6 * N)%nat
    /\ run_schedule other schedule (System db clk (sessions i customers)) = Some s.
Proof.
  intros N Hr Hp Hq. rewrite sessions_system_of.
  destruct (stock_invariant_start db customers r Hr Hp Hq) as [Hinv0 Hs0].
  apply (complete_schedule N (6 * N)); [done|]. rewrite Hs0. lia.
Qed.

End ConcurrentSales.

(** C7: as many sessions as the item has units, each selling one unit of
    it, interleaved in any order: no schedule runs longer than six steps
    for each session, the stock is never negative, a system in which a
    session has a step left is not stuck, and when all steps are made every
    session has reported success and the stock is exactly 0; such a
    schedule exists. *)
Theorem concurrent_sales_of_one_unit
    (other : string -> option value -> database -> outcome cursor * database)
    (i : string) (clk : Z) (N : nat) (customers : list string) (db : database)
    (r : inventory_row) (schedule : list nat) (s : system) :
  (1 <= N)%nat -> List.length customers = N ->
  first_row i db = Some r -> quantity r = Z.of_nat N ->
  run_schedule other schedule (System db clk (sessions i customers)) = Some s ->
  (List.length schedule <= 6 * N)%nat
  /\ 0 <= current_quantity (store s) i
  /\ ((List.length schedule < 6 * N)%nat -> exists s', step other s s')
  /\ (List.length schedule = (6 * N)%nat ->
      Forall succeeded (threads s) /\ current_quantity (store s) i = 0
      /\ forall n, step_at other n s = None)
  /\ exists schedule' s',
       List.length schedule' = (6 * N)%nat
       /\ run_schedule other schedule' (System db clk (sessions i customers)) = Some s'.
Proof.
  intros _ <- Hr Hq Hrun.
  destruct (concurrent_sales other i (price r) clk customers db r schedule s Hr eq_refl Hq Hrun)
    as (H1 & H2 & H3 & H4).
  repeat split; try done.
  - by apply H4.
  - by apply H4.
  - by apply H4.
  - by apply (concurrent_sales_complete other i (price r) clk customers db r).
Qed.

Lemma concurrent_sales_two_sessions :
  exists s,
    run_schedule reject_others [0; 1; 0; 1; 1; 0; 0; 1; 0; 1; 1; 0]%nat
      (System (aspirin_ledger 2) 0 (sessions "aspirin" ["Ann"; "Bob"])) = Some s
    /\ Forall succeeded (threads s) /\ current_quantity (store s) "aspirin" = 0.
Proof.
  destruct (run_schedule reject_others [0; 1; 0; 1; 1; 0; 0; 1; 0; 1; 1; 0]%nat
              (System (aspirin_ledger 2) 0 (sessions "aspirin" ["Ann"; "Bob"])))
    as [s|] eqn:Hrun; [|vm_compute in Hrun; discriminate].
  exists s. split; [reflexivity|].
  destruct (concurrent_sales_of_one_unit reject_others "aspirin" 0 2 ["Ann"; "Bob"]
              (aspirin_ledger 2) (InventoryRow "aspirin" 2 (Decimal 200 (-2)))
              [0; 1; 0; 1; 1; 0; 0; 1; 0; 1; 1; 0]%nat s)
    as (_ & _ & _ & Hend & _).
  - lia.
  - reflexivity.
  - reflexivity.
  - reflexivity.
  - exact Hrun.
  - destruct (Hend eq_refl) as (Hs & Hq & _). by split.
Defined.

(** The model has the race of the check and the decrement: with one unit
    in stock, two sessions can both pass the check and both decrement. *)
Example two_sales_of_the_last_unit :
  exists s,
    run_schedule reject_others [0; 0; 0; 1; 1; 1; 0; 0; 0; 1; 1; 1]%nat
      (System (aspirin_ledger 1) 0 (sessions "aspirin" ["Ann"; "Bob"])) = Some s
    /\ Forall succeeded (threads s) /\ current_quantity (store s) "aspirin" = -1.
Proof.
  eexists. split; [vm_compute; reflexivity|]. split.
  - repeat constructor; eexists; reflexivity.
  - reflexivity.
Qed.

(** ** The claims on concrete ledgers *)

Lemma make_sale_aspirin_alice_on_ledger :
  run (H := pg reject_others)
    (SalesManager.make_sale [(VStr "aspirin", VInt 5)] (VStr "Alice"))
    (World (Some (aspirin_ledger 10)) 0 [])
  = (Ok VNone,
     World (Some (Database [InventoryRow "aspirin" 5 (Decimal 200 (-2))]
                    [SalesRow "aspirin" 5 (Decimal 1000 (-2)) "Alice" 0]))
       0
       [ CursorExecute "SELECT price FROM inventory WHERE item = %s" (Some (VTuple [VStr "aspirin"]));
         CursorFetchall;
         CursorExecute "SELECT quantity FROM inventory WHERE item = %s"
           (Some (VTuple [VStr "aspirin"]));
         CursorFetchall;
         CursorExecute
           "INSERT INTO sales (item, quantity, price, customer, sale_date) VALUES (%s,%s,%s,%s,%s)"
           (Some (VTuple [VStr "aspirin"; VInt 5; VDecimal (Decimal 1000 (-2));
                          VStr "Alice"; VDatetime 0]));
         ConnectionCommit;
         CursorExecute "UPDATE inventory SET quantity = quantity - %s WHERE item = %s"
           (Some (VTuple [VInt 5; VStr "aspirin"]));
         ConnectionCommit;
         StSuccess (sale_recorded (VDecimal (Decimal 1000 (-2)))) ]).
Proof.
  destruct (make_sale_aspirin_alice reject_others (aspirin_ledger 10) 0 []
              (InventoryRow "aspirin" 10 (Decimal 200 (-2))) eq_refl eq_refl eq_refl)
    as [Hrun _].
  exact Hrun.
Defined.

Lemma insufficient_stock_aborts_bob :
  aborts_without_writes reject_others (aspirin_ledger 5) 0 [] [("aspirin", 50)] (VStr "Bob")
    (insufficient_stock_error "aspirin" 5).
Proof.
  destruct (insufficient_stock_aborts reject_others (aspirin_ledger 5) 0 []
              [("aspirin", 50)] (VStr "Bob") "aspirin" 50)
    as (pre & l & post & Heq & Hpre & Hl & Habort & Hmsg).
  - apply list_elem_of_here.
  - vm_compute. reflexivity.
  - destruct pre as [|l' pre]; [|by destruct pre].
    injection Heq as <- _. exact Habort.
Defined.

Lemma unknown_item_aborts_carl :
  aborts_without_writes reject_others (aspirin_ledger 5) 0 [] [("unknownitem", 1)] (VStr "Carl")
    (unknown_item_error "unknownitem").
Proof.
  destruct (unknown_item_aborts reject_others (aspirin_ledger 5) 0 []
              [("unknownitem", 1)] (VStr "Carl") "unknownitem" 1)
    as (pre & l & post & Heq & Hpre & Hl & Habort & Hmsg & Hfirst).
  - apply list_elem_of_here.
  - reflexivity.
  - rewrite (Hfirst [] [] eq_refl eq_refl) in Habort. exact Habort.
Defined.

Lemma absent_item_on_ledger :
  run (H := pg reject_others) (SalesManager.get_current_quantity (VStr "ghost"))
    (World (Some (aspirin_ledger 5)) 0 [])
  = (Ok (VInt 0), World (Some (aspirin_ledger 5)) 0 (quantity_lookup "ghost"))
  /\ run (H := pg reject_others) (SalesManager.get_item_price (VStr "ghost"))
       (World (Some (aspirin_ledger 5)) 0 [])
     = (Ok VNone, World (Some (aspirin_ledger 5)) 0 (price_lookup "ghost")).
Proof.
  destruct (absent_item_quantity_and_price reject_others (aspirin_ledger 5) 0 [] "ghost")
    as (Hq & Hp & _).
  - intros r Hin. apply list_elem_of_singleton in Hin as ->. discriminate.
  - split; [exact Hq|exact Hp].
Defined.

(** C2 as stated fails: the request has a line that asks for more aspirin
    than there is, but the line before it, for an item without a row, fails
    first, and the sale is aborted with the unknown-item message, not with
    an insufficient-stock message. *)
Lemma insufficient_stock_claim_counterexample :
  ("aspirin", 50) ∈ [("ghost", 1); ("aspirin", 50)]
  /\ current_quantity (aspirin_ledger 5) "aspirin" < 50
  /\ aborts_without_writes reject_others (aspirin_ledger 5) 0 []
       [("ghost", 1); ("aspirin", 50)] (VStr "Bob") (unknown_item_error "ghost")
  /\ ~ exists j n,
       aborts_without_writes reject_others (aspirin_ledger 5) 0 []
         [("ghost", 1); ("aspirin", 50)] (VStr "Bob") (insufficient_stock_error j n).
Proof.
  split; [apply list_elem_of_further, list_elem_of_here|]. split; [reflexivity|].
  assert (run (H := pg reject_others)
            (SalesManager.make_sale (request [("ghost", 1); ("aspirin", 50)]) (VStr "Bob"))
            (World (Some (aspirin_ledger 5)) 0 [])
          = (Ok VNone,
             World (Some (aspirin_ledger 5)) 0
               (price_lookup "ghost" ++ [StError (unknown_item_error "ghost")]))) as Hreal
    by (vm_compute; reflexivity).
  split.
  - exists (price_lookup "ghost"). split; [reflexivity|exact Hreal].
  - intros (j & n & reads & _ & Hrun).
    rewrite Hreal in Hrun. injection Hrun as Htr.
    apply (f_equal last) in Htr. cbn [app] in Htr. rewrite !last_snoc in Htr.
    discriminate.
Qed.

(** C3 as stated fails: the request has a line for an item without a
    price, but the line before it fails first, and the sale is aborted with
    the insufficient-stock message for that line, not with an unknown-item
    message naming the item without a price. *)
Lemma unknown_item_claim_counterexample :
  ("unknownitem", 1) ∈ [("aspirin", 50); ("unknownitem", 1)]
  /\ first_row "unknownitem" (aspirin_ledger 5) = None
  /\ aborts_without_writes reject_others (aspirin_ledger 5) 0 []
       [("aspirin", 50); ("unknownitem", 1)] (VStr "Carl")
       (insufficient_stock_error "aspirin" 5)
  /\ ~ aborts_without_writes reject_others (aspirin_ledger 5) 0 []
         [("aspirin", 50); ("unknownitem", 1)] (VStr "Carl")
         (unknown_item_error "unknownitem").
Proof.
  split; [apply list_elem_of_further, list_elem_of_here|]. split; [reflexivity|].
  assert (run (H := pg reject_others)
            (SalesManager.make_sale (request [("aspirin", 50); ("unknownitem", 1)]) (VStr "Carl"))
            (World (Some (aspirin_ledger 5)) 0 [])
          = (Ok VNone,
             World (Some (aspirin_ledger 5)) 0
               ((price_lookup "aspirin" ++ quantity_lookup "aspirin")
                  ++ [StError (insufficient_stock_error "aspirin" 5)]))) as Hreal
    by (vm_compute; reflexivity).
  split.
  - exists (price_lookup "aspirin" ++ quantity_lookup "aspirin"). split; [reflexivity|exact Hreal].
  - intros (reads & _ & Hrun). rewrite Hreal in Hrun. injection Hrun as Htr.
    apply (f_equal last) in Htr. cbn [app] in Htr. rewrite !last_snoc in Htr.
    discriminate.
Qed.




(** * Whole sales *)

Section WholeSale.
Variable other : string -> option value -> database -> outcome cursor * database.
#[local] Hint Extern 0 (Driver database) => exact (pg other) : typeclass_instances.

Implicit Types (db : database) (clk : Z) (tr : list event) (c : string)
  (lines : list (string * Z)).

Lemma sale_total_numeric db lines total :
  numeric total -> numeric (foldl (fun t l => add_total t (line_price db l)) total lines).
Proof.
  revert total. induction lines as [|l lines IH]; intros total Hn; [done|].
  cbn [foldl]. by apply IH, add_total_numeric.
Qed.








End WholeSale.

(** * The gateway under any driver *)

Section AnyDriver.
Context {C : Type} `{Driver C}.

(** A call appends to the trace and keeps the clock and a connection. *)
Lemma execute_query_keeps (query : string) (params : value) (c : C) (clk : Z) (tr : list event) :
  exists c' evs,
    snd (execute_query query params (World (Some c) clk tr)) = World (Some c') clk (tr ++ evs).
Proof.
  rewrite execute_query_body. cbv zeta.
  destruct (cursor_execute query (vars_of params) c) as [[cur|e] c1];
    [|destruct (is_psycopg2_Error e); cbn [snd]; rewrite <- ?app_assoc; eauto].
  destruct (negb (startswith query "SELECT")).
  - destruct (connection_commit c1) as [[[]|e] c2];
      [|destruct (is_psycopg2_Error e); cbn [snd]; rewrite <- ?app_assoc; eauto].
    destruct (startswith (upper (strip query)) "SELECT");
      [destruct (cursor_fetchall cur)|]; cbn [snd]; rewrite <- ?app_assoc; eauto.
  - destruct (startswith (upper (strip query)) "SELECT");
      [destruct (cursor_fetchall cur)|]; cbn [snd]; rewrite <- ?app_assoc; eauto.
Qed.

Lemma run_keeps {A} (m : prog A) (c : C) (clk : Z) (tr : list event) :
  exists c' evs, snd (run m (World (Some c) clk tr)) = World (Some c') clk (tr ++ evs).
Proof.
  revert c tr. induction m as [a|e|q p k IH|k IH|msg k IH|msg k IH]; intros c tr; cbn [run].
  - exists c, []. by rewrite app_nil_r.
  - exists c, []. by rewrite app_nil_r.
  - unfold bind. destruct (execute_query_keeps q p c clk tr) as (c1 & evs1 & Hw).
    destruct (execute_query q p (World (Some c) clk tr)) as [[v|e] w]; cbn [snd] in Hw; subst w.
    + destruct (IH v c1 (tr ++ evs1)) as (c2 & evs2 & Hw2).
      exists c2, (evs1 ++ evs2). by rewrite Hw2, app_assoc.
    + by exists c1, evs1.
  - apply IH.
  - unfold bind, st_error, emit. cbn [conn clock trace].
    destruct (IH c (tr ++ [StError msg])) as (c2 & evs2 & Hw2).
    exists c2, ([StError msg] ++ evs2). by rewrite Hw2, app_assoc.
  - unfold bind, st_success, emit. cbn [conn clock trace].
    destruct (IH c (tr ++ [StSuccess msg])) as (c2 & evs2 & Hw2).
    exists c2, ([StSuccess msg] ++ evs2). by rewrite Hw2, app_assoc.
Qed.

Lemma execute_query_ok (query : string) (params : value) (c : C) (clk : Z) (tr : list event) :
  raises_only_psycopg2_errors ->
  exists v c' evs,
    execute_query query params (World (Some c) clk tr) = (Ok v, World (Some c') clk (tr ++ evs))
    /\ (v = VNone \/ exists rows, v = VList rows).
Proof.
  intros [Hexec Hcommit]. rewrite execute_query_body. cbv zeta.
  destruct (cursor_execute query (vars_of params) c) as [[cur|e] c1] eqn:He.
  2:{ rewrite (Hexec _ _ _ _ _ He). rewrite <- app_assoc. eauto 10. }
  destruct (negb (startswith query "SELECT")).
  - destruct (connection_commit c1) as [[[]|e] c2] eqn:Hc.
    2:{ rewrite (Hcommit _ _ _ Hc). rewrite <- !app_assoc. eauto 10. }
    destruct (startswith (upper (strip query)) "SELECT");
      [destruct cur; cbn [cursor_fetchall]|]; rewrite <- ?app_assoc; eauto 10.
  - destruct (startswith (upper (strip query)) "SELECT");
      [destruct cur; cbn [cursor_fetchall]|]; rewrite <- ?app_assoc; eauto 10.
Qed.

Lemma run_apply_queries_ok (queries : list (string * value)) :
  raises_only_psycopg2_errors ->
  forall (c : C) (clk : Z) (tr : list event),
  exists c' evs,
    run (SalesManager.apply_queries queries) (World (Some c) clk tr)
    = (Ok tt, World (Some c') clk (tr ++ evs)).
Proof.
  intros Hd. induction queries as [|[q p] queries IH]; intros c clk tr.
  - exists c, []. cbn. by rewrite app_nil_r.
  - cbn [SalesManager.apply_queries db_execute_query pbind run]. unfold bind at 1.
    destruct (execute_query_ok q p c clk tr Hd) as (v & c1 & evs1 & -> & _).
    destruct (IH c1 clk (tr ++ evs1)) as (c2 & evs2 & ->).
    exists c2, (evs1 ++ evs2). by rewrite app_assoc.
Qed.

End AnyDriver.

(** * The two servers of the examples *)

Lemma reject_others_errors : raises_only_psycopg2_errors (H := pg reject_others).
Proof.
  split.
  - intros query vars c e c'. cbn [cursor_execute pg driver]. unfold execute, syntax_error, reject_others.
    intros Hx. repeat case_match; by simplify_eq.
  - intros c e c'. cbn [connection_commit pg driver]. unfold commit. by intros [=].
Qed.

Lemma read_only_errors : raises_only_psycopg2_errors (H := read_only_pg).
Proof.
  split.
  - intros query vars c e c'. cbn [cursor_execute read_only_pg]. unfold read_only_execute.
    destruct (startswith query "SELECT"); [|by intros [= <- _]].
    intros Hx. by apply (proj1 reject_others_errors query vars c e c').
  - intros c e c'. cbn [connection_commit read_only_pg]. unfold commit. by intros [=].
Qed.

(** * More of the gateway *)

Section GatewayExtras.
Context {C : Type} `{Driver C}.

(** X1: on a live connection, when the driver raises nothing but
    [psycopg2.Error], [execute_query] never raises: it returns [None] or the
    list of the fetched rows, keeps the connection and only adds to the
    trace. *)
Theorem execute_query_never_raises (query : string) (params : value) (w : world C) (c : C) :
  raises_only_psycopg2_errors -> conn w = Some c ->
  exists v c' evs,
    execute_query query params w = (Ok v, World (Some c') (clock w) (trace w ++ evs))
    /\ (v = VNone \/ exists rows, v = VList rows).
Proof.
  intros Hd Hc. destruct w as [cn clk tr]. cbn [conn clock trace] in *. subst cn.
  by apply execute_query_ok.
Qed.

(** What a [SELECT] in capitals adds to the trace: never a commit. *)
Lemma execute_query_select_events (query : string) (params : value) (c : C) (clk : Z)
    (tr : list event) :
  startswith query "SELECT" = true ->
  exists r c' evs,
    execute_query query params (World (Some c) clk tr) = (r, World (Some c') clk (tr ++ evs))
    /\ (ConnectionCommit ∉ evs)
    /\ (forall e, r = Raise e -> is_psycopg2_Error e = false).
Proof.
  intros Hsel. rewrite execute_query_body. cbv zeta. rewrite Hsel. cbn [negb].
  rewrite (startswith_SELECT_strip_upper query Hsel).
  destruct (cursor_execute query (vars_of params) c) as [[cur|e] c1].
  - destruct cur as [rows|]; cbn [cursor_fetchall].
    + do 3 eexists. rewrite <- app_assoc. split; [done|]. split; [|done].
      cbn [app]. not_in_events.
    + do 3 eexists. rewrite <- !app_assoc. split; [done|]. split; [|done].
      cbn [app]. not_in_events.
  - destruct (is_psycopg2_Error e) eqn:He.
    + do 3 eexists. rewrite <- app_assoc. split; [done|]. split; [|done].
      cbn [app]. not_in_events.
    + exists (Raise e), c1, [CursorExecute query (vars_of params)]. split; [done|].
      split; [|by intros ? [= <-]]. not_in_events.
Qed.

End GatewayExtras.

(** * The managers under any driver *)

Section ManagersAnyDriver.
Context {C : Type} `{Driver C}.

Lemma run_eval {A} (o : outcome A) (w : world C) : run (eval o) w = (o, w).
Proof. by destruct o. Qed.

(** [rows[0][0] if rows else default] calls nothing. *)
Lemma run_first_cell (rows default : value) (w : world C) :
  exists o,
    run (if truthy rows
         then (let! row := eval (getitem rows 0) in eval (getitem row 0))%prog
         else Ret default) w = (o, w)
    /\ (truthy rows = false -> o = Ok default).
Proof.
  destruct (truthy rows); [|by exists (Ok default)].
  rewrite run_pbind. unfold bind. rewrite run_eval.
  destruct (getitem rows 0) as [row|e]; [|by exists (Raise e)].
  rewrite run_eval. by eexists.
Qed.

(** A lookup is one [SELECT] and a computation on its rows. *)
Lemma run_lookup (query : string) (item default : value) (c : C) (clk : Z) (tr : list event) :
  startswith query "SELECT" = true ->
  exists o c' evs,
    run (let! rows := db_execute_query query (VTuple [item]) in
         if truthy rows
         then (let! row := eval (getitem rows 0) in eval (getitem row 0))
         else Ret default)%prog (World (Some c) clk tr)
    = (o, World (Some c') clk (tr ++ evs))
    /\ (ConnectionCommit ∉ evs).
Proof.
  intros Hsel. cbn [db_execute_query pbind run]. unfold bind at 1.
  destruct (execute_query_select_events query (VTuple [item]) c clk tr Hsel)
    as (r & c' & evs & -> & Hno & _).
  destruct r as [rows|e]; [|by eauto 10].
  destruct (run_first_cell rows default (World (Some c') clk (tr ++ evs))) as (o & -> & _).
  by eauto 10.
Qed.

(** X2: the lookups and the listing never commit, whatever the driver
    does: all that [get_item_price], [get_current_quantity] and
    [get_items_in_inventory] add to the trace are calls other than
    [connection.commit()], and they keep the connection. *)
Theorem reads_never_commit (item : value) (w : world C) (c : C) :
  conn w = Some c ->
  forall m, m = SalesManager.get_item_price item
            \/ m = SalesManager.get_current_quantity item
            \/ m = InventoryManager.get_items_in_inventory ->
  exists o c' evs,
    run m w = (o, World (Some c') (clock w) (trace w ++ evs)) /\ (ConnectionCommit ∉ evs).
Proof.
  intros Hc m Hm. destruct w as [cn clk tr]. cbn [conn clock trace] in *. subst cn.
  destruct Hm as [-> | [-> | ->]].
  - by apply run_lookup.
  - by apply run_lookup.
  - assert (InventoryManager.get_items_in_inventory = InventoryManager.get_items_in_inventory_2)
      as -> by (vm_compute; reflexivity).
    cbn [InventoryManager.get_items_in_inventory_2 db_execute_query pbind run]. unfold bind at 1.
    destruct (execute_query_select_events "SELECT item, quantity, price FROM inventory" VNone
                c clk tr eq_refl) as (r & c' & evs & -> & Hno & _).
    destruct r as [rows|e]; cbn [run ret]; by eauto 10.
Qed.

(** X3: when the driver raises [psycopg2.Error] on their statement, the
    lookups answer as for an item that is not there: [get_item_price]
    returns [None] and [get_current_quantity] returns 0, after the message
    of the gateway. *)
Theorem lookups_on_driver_error (item : value) (w : world C) (c c1 c2 : C) (msg1 msg2 : string) :
  conn w = Some c ->
  cursor_execute "SELECT price FROM inventory WHERE item = %s" (Some (VTuple [item])) c
  = (Raise (Psycopg2Error msg1), c1) ->
  cursor_execute "SELECT quantity FROM inventory WHERE item = %s" (Some (VTuple [item])) c
  = (Raise (Psycopg2Error msg2), c2) ->
  run (SalesManager.get_item_price item) w
  = (Ok VNone,
     World (Some c1) (clock w)
       (trace w ++ [CursorExecute "SELECT price FROM inventory WHERE item = %s"
                      (Some (VTuple [item]));
                    StError (query_error (Psycopg2Error msg1))]))
  /\ run (SalesManager.get_current_quantity item) w
     = (Ok (VInt 0),
        World (Some c2) (clock w)
          (trace w ++ [CursorExecute "SELECT quantity FROM inventory WHERE item = %s"
                         (Some (VTuple [item]));
                       StError (query_error (Psycopg2Error msg2))])).
Proof.
  intros Hc Hp Hq. destruct w as [cn clk tr]. cbn [conn clock trace] in *. subst cn.
  split.
  - cbn [SalesManager.get_item_price db_execute_query pbind run]. unfold bind at 1.
    rewrite execute_query_body. cbv zeta. change (vars_of (VTuple [item])) with (Some (VTuple [item])).
    rewrite Hp. cbn [is_psycopg2_Error]. rewrite <- app_assoc. reflexivity.
  - cbn [SalesManager.get_current_quantity db_execute_query pbind run]. unfold bind at 1.
    rewrite execute_query_body. cbv zeta. change (vars_of (VTuple [item])) with (Some (VTuple [item])).
    rewrite Hq. cbn [is_psycopg2_Error]. rewrite <- app_assoc. reflexivity.
Qed.

(** X19: when the driver raises [psycopg2.Error] on the listing statement,
    [get_items_in_inventory] answers as for an empty table: it returns the
    empty list, after the message of the gateway, and commits nothing. *)
Theorem listing_on_driver_error (w : world C) (c c1 : C) (msg : string) :
  conn w = Some c ->
  cursor_execute "SELECT item, quantity, price FROM inventory" None c
  = (Raise (Psycopg2Error msg), c1) ->
  run InventoryManager.get_items_in_inventory w
  = (Ok (VList []),
     World (Some c1) (clock w)
       (trace w ++ [CursorExecute "SELECT item, quantity, price FROM inventory" None;
                    StError (query_error (Psycopg2Error msg))])).
Proof.
  intros Hc Hl. destruct w as [cn clk tr]. cbn [conn clock trace] in *. subst cn.
  assert (InventoryManager.get_items_in_inventory = InventoryManager.get_items_in_inventory_2)
    as -> by (vm_compute; reflexivity).
  cbn [InventoryManager.get_items_in_inventory_2 db_execute_query pbind run]. unfold bind at 1.
  rewrite execute_query_body. cbv zeta. change (vars_of VNone) with (@None value).
  rewrite Hl. cbn [is_psycopg2_Error]. rewrite <- app_assoc. reflexivity.
Qed.

(** X4: a driver error in the price lookup of a line makes [make_sale]
    report that item as unknown: after the message of the gateway it shows
    "No price found" for the item and returns, with no other call. *)
Theorem price_lookup_error_is_unknown_item (item quantity customer : value)
    (rest : list (value * value)) (w : world C) (c c1 : C) (msg : string) :
  conn w = Some c ->
  cursor_execute "SELECT price FROM inventory WHERE item = %s" (Some (VTuple [item])) c
  = (Raise (Psycopg2Error msg), c1) ->
  run (SalesManager.make_sale ((item, quantity) :: rest) customer) w
  = (Ok VNone,
     World (Some c1) (clock w)
       (trace w ++ [CursorExecute "SELECT price FROM inventory WHERE item = %s"
                      (Some (VTuple [item]));
                    StError (query_error (Psycopg2Error msg));
                    StError [Lit "No price found for item: "; Field item ""]])).
Proof.
  intros Hc Hp. destruct w as [cn clk tr]. cbn [conn clock trace] in *. subst cn.
  cbn [SalesManager.make_sale datetime_now pbind run clock SalesManager.validate
       SalesManager.get_item_price db_execute_query].
  unfold bind at 1.
  rewrite execute_query_body. cbv zeta. change (vars_of (VTuple [item])) with (Some (VTuple [item])).
  rewrite Hp. cbn [is_psycopg2_Error truthy is_None pbind run st_error_].
  unfold bind, st_error, emit, ret. cbn [conn clock trace]. rewrite <- !app_assoc. reflexivity.
Qed.

(** X5: once the first loop of [make_sale] has run to its end, the sale
    is reported as a success whatever happens to its statements: with a
    driver that raises nothing but [psycopg2.Error], [make_sale] returns
    after [st.success] with the total of the validation, also when writes
    have failed. *)
Theorem make_sale_reports_success_whatever_the_writes_do
    (items : list (value * value)) (customer : value) (c : C) (clk : Z) (tr : list event)
    (total : value) (queries : list (string * value)) (w1 : world C) :
  raises_only_psycopg2_errors ->
  run (SalesManager.validate items customer (VDatetime clk) (VInt 0) []) (World (Some c) clk tr)
  = (Ok (SalesManager.Completed (total, queries)), w1) ->
  exists c' evs,
    run (SalesManager.make_sale items customer) (World (Some c) clk tr)
    = (Ok VNone, World (Some c') clk (trace w1 ++ evs ++ [StSuccess (sale_recorded total)])).
Proof.
  intros Hd Hv.
  destruct (run_keeps (SalesManager.validate items customer (VDatetime clk) (VInt 0) []) c clk tr)
    as (c1 & evs1 & Hw1).
  rewrite Hv in Hw1. cbn [snd] in Hw1. subst w1. cbn [trace].
  unfold SalesManager.make_sale. cbn [datetime_now pbind run clock].
  rewrite run_pbind. unfold bind at 1. rewrite Hv.
  rewrite run_pbind. unfold bind at 1.
  destruct (run_apply_queries_ok queries Hd c1 clk (tr ++ evs1)) as (c2 & evs2 & ->).
  exists c2, evs2. cbn [run pbind st_success_]. unfold bind, st_success, emit, ret.
  cbn [conn clock trace]. by rewrite <- !app_assoc.
Qed.

(** Without a connection a call of the gateway raises and changes
    nothing. *)
Lemma run_call_without_connection {A} (query : string) (params : value)
    (k : value -> prog A) (w : world C) :
  conn w = None ->
  run (CallExecuteQuery query params k) w
  = (Raise (AttributeError "'NoneType' object has no attribute 'cursor'"), w).
Proof. destruct w as [cn clk tr]. cbn [conn]. by intros ->. Qed.

(** The operations that reach the gateway: adding an item, listing, the
    two lookups, and a sale of at least one line. *)
Lemma run_without_connection (w : world C) (m : prog value) :
  conn w = None -> reaches_gateway m ->
  run m w = (Raise (AttributeError "'NoneType' object has no attribute 'cursor'"), w).
Proof.
  intros Hc Hm. destruct Hm as [item quantity price|
                                |item|item|line rest customer].
  - by apply run_call_without_connection.
  - assert (InventoryManager.get_items_in_inventory = InventoryManager.get_items_in_inventory_2)
      as -> by (vm_compute; reflexivity).
    by apply run_call_without_connection.
  - by apply run_call_without_connection.
  - by apply run_call_without_connection.
  - destruct line as [i q].
    cbn [SalesManager.make_sale datetime_now pbind run SalesManager.validate
         SalesManager.get_item_price db_execute_query].
    by apply (run_call_without_connection (A := value)).
Qed.

(** X6: when [self.conn] is [None], every operation that reaches the
    gateway raises the [AttributeError] of [self.conn.cursor()], shows
    nothing and changes nothing: adding an item, listing, the two lookups,
    and a sale of at least one line. *)
Theorem operations_without_connection (w : world C) (m : prog value) :
  conn w = None -> reaches_gateway m ->
  run m w = (Raise (AttributeError "'NoneType' object has no attribute 'cursor'"), w).
Proof. apply run_without_connection. Qed.

Lemma DatabaseManager_init_result (psycopg2_connect : connection_parameters -> outcome C)
    (self : connection_parameters) (w : world C) :
  DatabaseManager_init psycopg2_connect self w
  = match psycopg2_connect self with
    | Ok c => (Ok tt, World (Some c) (clock w) (trace w))
    | Raise e =>
        if is_psycopg2_Error e
        then (Ok tt,
              World None (clock w)
                (trace w ++ [StError [Lit "Error connecting to PostgreSQL database: ";
                                      FieldExn e]]))
        else (Raise e, w)
    end.
Proof.
  unfold DatabaseManager_init, connect_to_db, try_except, bind, ret, raise, st_error, emit.
  destruct (psycopg2_connect self) as [c|e]; [done|]. by destruct (is_psycopg2_Error e).
Qed.

(** X7: when [psycopg2.connect] fails with a [psycopg2.Error], the
    constructor of [DatabaseManager] does not raise: it shows the error
    once and leaves [self.conn] at [None]; the first operation that then
    reaches the gateway raises [AttributeError], with nothing more shown. *)
Theorem failed_connect_then_operation (psycopg2_connect : connection_parameters -> outcome C)
    (self : connection_parameters) (msg : string) (w : world C) (m : prog value) :
  psycopg2_connect self = Raise (Psycopg2Error msg) -> reaches_gateway m ->
  let w1 := World None (clock w)
              (trace w ++ [StError [Lit "Error connecting to PostgreSQL database: ";
                                    FieldExn (Psycopg2Error msg)]]) in
  DatabaseManager_init psycopg2_connect self w = (Ok tt, w1)
  /\ bind (DatabaseManager_init psycopg2_connect self) (fun _ => run m) w
     = (Raise (AttributeError "'NoneType' object has no attribute 'cursor'"), w1).
Proof.
  intros Hconnect Hm w1.
  assert (DatabaseManager_init psycopg2_connect self w = (Ok tt, w1)) as Hinit.
  { unfold DatabaseManager_init, connect_to_db, try_except, bind, ret, raise, st_error, emit.
    by rewrite Hconnect. }
  split; [done|]. unfold bind at 1. rewrite Hinit. by apply run_without_connection.
Qed.

End ManagersAnyDriver.

(** * Sales and the ledger, in general *)

Section SaleExtras.
Variable other : string -> option value -> database -> outcome cursor * database.
#[local] Hint Extern 0 (Driver database) => exact (pg other) : typeclass_instances.

Implicit Types (db : database) (clk : Z) (tr : list event) (c : string)
  (lines : list (string * Z)).


Lemma first_row_elem db i r : first_row i db = Some r -> r ∈ inventory db /\ item r = i.
Proof.
  unfold first_row, where_item. intros Hr.
  destruct (filter _ _) as [|r' rows] eqn:Hf; [done|]. cbn in Hr. injection Hr as ->.
  assert (r ∈ filter (fun r => item r = i) (inventory db)) as Hin by (rewrite Hf; left).
  apply list_elem_of_filter in Hin as [Hi Hin]. done.
Qed.

(** X9: a sale debits every row of the item, not only the row it
    checked: of the rows with the name of the line, the first alone is
    compared with the requested quantity, and each is decremented; a second
    row of the item that holds less is left negative. *)
Theorem sale_debits_every_row_of_the_item db clk tr c i q :
  passes db (i, q) = true ->
  exists db',
    conn (snd (run (SalesManager.make_sale [(VStr i, VInt q)] (VStr c))
                 (World (Some db) clk tr))) = Some db'
    /\ forall r, r ∈ inventory db -> item r = i ->
         InventoryRow i (quantity r - q) (price r) ∈ inventory db'
         /\ (quantity r < q -> exists r', r' ∈ inventory db' /\ item r' = i /\ quantity r' < 0).
Proof.
  intros Hp. destruct (passes_inv db (i, q) Hp) as (r0 & Hr0 & Hq). cbn [fst snd] in *.
  rewrite (make_sale_one_line other db clk tr i q c r0 Hr0 Hq). cbn [snd conn].
  eexists. split; [done|]. cbn [inventory]. intros r Hin Hi.
  assert (InventoryRow i (quantity r - q) (price r)
          ∈ decrement q i <$> inventory db) as Hin'.
  { apply list_elem_of_fmap. exists r. split; [|done].
    unfold decrement. rewrite decide_True by done. by rewrite Hi. }
  split; [done|]. intros Hlt. eexists. split; [exact Hin'|]. cbn. split; [done|lia].
Qed.





End SaleExtras.

(** * Operations one after the other *)

Section Sequences.
Variable other : string -> option value -> database -> outcome cursor * database.
#[local] Hint Extern 0 (Driver database) => exact (pg other) : typeclass_instances.

Implicit Types (db : database) (clk : Z) (tr : list event) (c : string).



(** X13: two sales of one item, one after the other: when the first is
    recorded, the second is checked against what the first has left, and is
    aborted, with that quantity as the available one, when it asks for
    more; the store is then as the first sale left it. *)
Theorem second_sale_sees_the_first db clk tr (i c1 c2 : string) (q1 q2 : Z) (r : inventory_row) :
  first_row i db = Some r -> q1 <= quantity r -> quantity r - q1 < q2 ->
  exists db1 evs,
    run (let! _ := SalesManager.make_sale [(VStr i, VInt q1)] (VStr c1) in
         SalesManager.make_sale [(VStr i, VInt q2)] (VStr c2)) (World (Some db) clk tr)
    = (Ok VNone,
       World (Some db1) clk
         (tr ++ evs ++ [StSuccess (sale_recorded (add_total (VInt 0) (line_total r q1)))]
             ++ price_lookup i ++ quantity_lookup i
             ++ [StError (insufficient_stock_error i (quantity r - q1))]))
    /\ sales db1 = sales db ++ [SalesRow i q1 (line_total r q1) c1 clk]
    /\ first_row i db1 = Some (InventoryRow (item r) (quantity r - q1) (price r)).
Proof.
  intros Hr Hq1 Hq2. rewrite run_pbind. unfold bind at 1.
  rewrite (make_sale_one_line other db clk tr i q1 c1 r Hr Hq1).
  set (db1 := Database (decrement q1 i <$> inventory db)
                (sales db ++ [SalesRow i q1 (line_total r q1) c1 clk])).
  assert (first_row i db1 = Some (InventoryRow (item r) (quantity r - q1) (price r))) as Hr1
    by (by apply first_row_decrement).
  assert (passes db1 (i, q2) = false) as Hfail.
  { unfold passes. cbn [fst snd]. rewrite Hr1. cbn [quantity].
    destruct (Z.ltb_spec (quantity r - q1) q2); [done|lia]. }
  match goal with |- context [run _ (World (Some db1) clk ?t)] => set (tr1 := t) end.
  destruct (make_sale_aborts other db1 clk tr1 [] (i, q2) [] (VStr c2) eq_refl Hfail)
    as (reads & _ & Hrun).
  pose proof (validate_aborts other db1 clk [] (i, q2) [] (VStr c2) (VDatetime clk) eq_refl Hfail
                tr1 (VInt 0) [] I) as Hval.
  change (SalesManager.make_sale [(VStr i, VInt q2)] (VStr c2))
    with (SalesManager.make_sale (request ([] ++ [(i, q2)])) (VStr c2)).
  unfold SalesManager.make_sale. cbn [datetime_now pbind run clock].
  rewrite run_pbind. unfold bind at 1. rewrite Hval. cbn [run ret mbind list_bind app].
  unfold validation_reads, validation_error. cbn [fst snd]. rewrite Hr1. cbn [quantity].
  exists db1.
  exists (price_lookup i ++ quantity_lookup i ++
          [ CursorExecute
              "INSERT INTO sales (item, quantity, price, customer, sale_date) VALUES (%s,%s,%s,%s,%s)"
              (Some (VTuple [VStr i; VInt q1; VDecimal (line_total r q1); VStr c1; VDatetime clk]));
            ConnectionCommit;
            CursorExecute "UPDATE inventory SET quantity = quantity - %s WHERE item = %s"
              (Some (VTuple [VInt q1; VStr i]));
            ConnectionCommit ]).
  split; [|done].
  unfold tr1. by rewrite <- !app_assoc.
Qed.


End Sequences.

(** * The page *)

Section Page.
Variable other : string -> option value -> database -> outcome cursor * database.
#[local] Hint Extern 0 (Driver database) => exact (pg other) : typeclass_instances.
Variable user : ui_call -> value.
Variable psycopg2_connect : connection_parameters -> outcome database.

Implicit Types (db : database) (clk : Z) (tr : list event) (c : string).

(** The names the sales page offers: the first column of the listing. *)
Lemma first_columns_triples (rows : list inventory_row) :
  InventoryManager.first_columns (triple <$> rows) = Ok ((fun r => VStr (item r)) <$> rows).
Proof.
  induction rows as [|r rows IH]; [done|].
  cbn [fmap list_fmap InventoryManager.first_columns]. unfold triple at 1.
  change (getitem (VTuple [VStr (item r); VInt (quantity r); VDecimal (price r)]) 0)
    with (Ok (VStr (item r)) : outcome value).
  cbn [fmap list_fmap] in IH. by rewrite IH.
Qed.

Lemma sales_page_run db clk tr (screen : list ui_call) :
  run_script user psycopg2_connect sales_page (World (Some db) clk tr) screen
  = let names := VList ((fun r => VStr (item r)) <$> inventory db) in
    let w1 := World (Some db) clk
                (tr ++ [CursorExecute "SELECT item, quantity, price FROM inventory" None;
                        CursorFetchall]) in
    let screen1 := screen ++
      [ StSubheader "Sales Tracking"; StWrite "Record sales transactions:";
        StSelectbox "Select Item to Sell" names;
        StNumberInput "Quantity" [("value", "1"); ("min_value", "1")];
        StTextInput "Customer"; StButton "Record Sale" ] in
    if truthy (user (StButton "Record Sale"))
    then match run (SalesManager.make_sale
                      [(user (StSelectbox "Select Item to Sell" names),
                        user (StNumberInput "Quantity" [("value", "1"); ("min_value", "1")]))]
                      (user (StTextInput "Customer"))) w1 with
         | (Ok _, w') => (Ok VNone, w', screen1)
         | (Raise e, w') => (Raise e, w', screen1)
         end
    else (Ok VNone, w1, screen1).
Proof.
  cbv zeta. unfold sales_page. cbn [run_script].
  assert (InventoryManager.get_items_in_inventory = InventoryManager.get_items_in_inventory_2)
    as -> by (vm_compute; reflexivity).
  rewrite run_get_items_in_inventory_2.
  cbn [iter eval pbind]. rewrite first_columns_triples. cbn [eval pbind run ret run_script].
  rewrite <- !app_assoc. cbn [app].
  destruct (truthy (user (StButton "Record Sale"))); [|done].
  cbn [run_script]. by destruct (run _ _) as [[v|e] w'].
Qed.

Lemma inventory_page_run db clk tr (screen : list ui_call) :
  run_script user psycopg2_connect inventory_page (World (Some db) clk tr) screen
  = let item := user (StTextInput "Item") in
    let quantity := user (StNumberInput "Quantity" [("value", "1"); ("min_value", "1")]) in
    let price := user (StNumberInput "Price" [("value", "0.0"); ("step", "0.01")]) in
    let screen1 := screen ++
      [ StSubheader "Inventory Management"; StWrite "Add new items to the inventory:";
        StTextInput "Item"; StNumberInput "Quantity" [("value", "1"); ("min_value", "1")];
        StNumberInput "Price" [("value", "0.0"); ("step", "0.01")];
        StButton "Add to Inventory" ] in
    let listing (w : world database) (screen : list ui_call) :=
      run_script user psycopg2_connect
        (CallMethod InventoryManager.get_items_in_inventory_2 (fun items_in_inventory =>
         Ask (StSelectbox "Item" items_in_inventory) (fun selected_item =>
         Ask (StButton "View Inventory") (fun view_clicked =>
         if truthy view_clicked
         then
           Show (StWrite "Inventory Details:")
             (CallMethod InventoryManager.get_items_in_inventory_2 (fun inventory_data =>
              if truthy inventory_data
              then Show (StDataframe inventory_data ["Item"; "Quantity"; "Price"]) (Done VNone)
              else Show (StWrite "No items in inventory.") (Done VNone)))
         else Done VNone)))) w screen in
    if truthy (user (StButton "Add to Inventory"))
    then match run (InventoryManager.add_item_to_inventory item quantity price)
                 (World (Some db) clk tr) with
         | (Ok _, w') => listing w' screen1
         | (Raise e, w') => (Raise e, w', screen1)
         end
    else listing (World (Some db) clk tr) screen1.
Proof.
  cbv zeta. unfold inventory_page. cbn [run_script].
  assert (InventoryManager.get_items_in_inventory = InventoryManager.get_items_in_inventory_2)
    as -> by (vm_compute; reflexivity).
  rewrite <- !app_assoc. cbn [app].
  destruct (truthy (user (StButton "Add to Inventory"))); [|done].
  cbn [run_script]. by destruct (run _ _) as [[v|e] w'].
Qed.

(** What the rest of the inventory page does on a store. *)
Lemma inventory_listing_run db clk tr (screen : list ui_call) :
  run_script user psycopg2_connect
    (CallMethod InventoryManager.get_items_in_inventory_2 (fun items_in_inventory =>
     Ask (StSelectbox "Item" items_in_inventory) (fun selected_item =>
     Ask (StButton "View Inventory") (fun view_clicked =>
     if truthy view_clicked
     then
       Show (StWrite "Inventory Details:")
         (CallMethod InventoryManager.get_items_in_inventory_2 (fun inventory_data =>
          if truthy inventory_data
          then Show (StDataframe inventory_data ["Item"; "Quantity"; "Price"]) (Done VNone)
          else Show (StWrite "No items in inventory.") (Done VNone)))
     else Done VNone)))) (World (Some db) clk tr) screen
  = let rows := VList (triple <$> inventory db) in
    let listed := [CursorExecute "SELECT item, quantity, price FROM inventory" None;
                   CursorFetchall] in
    if truthy (user (StButton "View Inventory"))
    then (Ok VNone, World (Some db) clk (tr ++ listed ++ listed),
          screen ++ [ StSelectbox "Item" rows; StButton "View Inventory";
                      StWrite "Inventory Details:";
                      match inventory db with
                      | [] => StWrite "No items in inventory."
                      | _ => StDataframe rows ["Item"; "Quantity"; "Price"]
                      end ])
    else (Ok VNone, World (Some db) clk (tr ++ listed),
          screen ++ [StSelectbox "Item" rows; StButton "View Inventory"]).
Proof.
  cbv zeta. cbn [run_script]. rewrite run_get_items_in_inventory_2. cbn [run_script].
  destruct (truthy (user (StButton "View Inventory"))).
  - cbn [run_script]. rewrite run_get_items_in_inventory_2.
    destruct (inventory db) as [|r rows]; cbn [fmap list_fmap truthy run_script];
      by rewrite <- !app_assoc.
  - cbn [run_script]. by rewrite <- !app_assoc.
Qed.

Lemma main_run (cn : option database) clk tr :
  run_script user psycopg2_connect main (World cn clk tr) []
  = let screen := [StTitle "Pharmacy Management System"; StSidebarSelectbox "Menu" menu] in
    let choice := user (StSidebarSelectbox "Menu" menu) in
    let page := if eq_str choice "Home" then home_page
                else if eq_str choice "Inventory Management" then inventory_page
                else if eq_str choice "Sales Tracking" then sales_page
                else Done VNone in
    match psycopg2_connect (ConnectionParameters "GlossonDB" "postgres" "feyo" "localhost" "5432")
    with
    | Ok db => run_script user psycopg2_connect page (World (Some db) clk tr) screen
    | Raise e =>
        if is_psycopg2_Error e
        then run_script user psycopg2_connect page
               (World None clk
                  (tr ++ [StError [Lit "Error connecting to PostgreSQL database: "; FieldExn e]]))
               screen
        else (Raise e, World cn clk tr, [StTitle "Pharmacy Management System"])
    end.
Proof.
  cbv zeta. unfold main. cbn [run_script app]. rewrite DatabaseManager_init_result.
  cbn [clock trace].
  destruct (psycopg2_connect _) as [db|e]; [done|]. by destruct (is_psycopg2_Error e).
Qed.

(** X15: recording a sale on the sales page: the page offers the item
    names of the rows of the inventory, in their order; when the user picks
    an item that has enough stock and presses "Record Sale", the run of
    [main] connects, lists, sells that one line and ends with the success
    message: one record is inserted and the stock of the item is
    decremented. *)
Theorem sales_page_records_a_sale db clk tr (i c : string) (q : Z) (r : inventory_row) :
  psycopg2_connect (ConnectionParameters "GlossonDB" "postgres" "feyo" "localhost" "5432")
  = Ok db ->
  user (StSidebarSelectbox "Menu" menu) = VStr "Sales Tracking" ->
  user (StSelectbox "Select Item to Sell" (VList ((fun r => VStr (item r)) <$> inventory db)))
  = VStr i ->
  user (StNumberInput "Quantity" [("value", "1"); ("min_value", "1")]) = VInt q ->
  user (StTextInput "Customer") = VStr c ->
  truthy (user (StButton "Record Sale")) = true ->
  first_row i db = Some r -> q <= quantity r ->
  exists db' tr',
    run_script user psycopg2_connect main (World None clk tr) []
    = (Ok VNone, World (Some db') clk tr',
       [ StTitle "Pharmacy Management System"; StSidebarSelectbox "Menu" menu;
         StSubheader "Sales Tracking"; StWrite "Record sales transactions:";
         StSelectbox "Select Item to Sell" (VList ((fun r => VStr (item r)) <$> inventory db));
         StNumberInput "Quantity" [("value", "1"); ("min_value", "1")];
         StTextInput "Customer"; StButton "Record Sale" ])
    /\ last tr' = Some (StSuccess (sale_recorded (add_total (VInt 0) (line_total r q))))
    /\ sales db' = sales db ++ [SalesRow i q (line_total r q) c clk]
    /\ first_row i db' = Some (InventoryRow (item r) (quantity r - q) (price r)).
Proof.
  intros Hconnect Hmenu Hsel Hqty Hcust Hclick Hr Hq.
  rewrite main_run. cbv zeta. rewrite Hconnect, Hmenu.
  cbn [eq_str String.eqb Ascii.eqb Bool.eqb]. rewrite sales_page_run. cbv zeta.
  rewrite Hclick, Hsel, Hqty, Hcust.
  rewrite (make_sale_one_line other db clk _ i q c r Hr Hq).
  eexists. eexists. split; [reflexivity|]. split.
  - rewrite !app_assoc.
    match goal with |- last (?l ++ [?a1; ?a2; ?a3; ?a4; ?a5]) = _ =>
      change (l ++ [a1; a2; a3; a4; a5]) with (l ++ ([a1; a2; a3; a4] ++ [a5])) end.
    rewrite app_assoc. apply last_snoc.
  - cbn [sales]. split; [done|]. by apply first_row_decrement.
Qed.

(** A sale of the item [None], when the server finds no row for it. *)
Lemma make_sale_of_None db clk tr (quantity customer : value) :
  other "SELECT price FROM inventory WHERE item = %s" (Some (VTuple [VNone])) db
  = (Ok (Some []), db) ->
  run (SalesManager.make_sale [(VNone, quantity)] customer) (World (Some db) clk tr)
  = (Ok VNone,
     World (Some db) clk
       (((tr ++ [CursorExecute "SELECT price FROM inventory WHERE item = %s"
                   (Some (VTuple [VNone]))]) ++ [CursorFetchall])
        ++ [StError [Lit "No price found for item: "; Field VNone ""]])).
Proof.
  intros Hother.
  cbn [SalesManager.make_sale datetime_now pbind run SalesManager.validate
       SalesManager.get_item_price db_execute_query clock].
  unfold bind at 1, execute_query at 1.
  lazy. lazy in Hother. rewrite Hother. reflexivity.
Qed.

(** X16: the sales page on an empty inventory: the page offers no item,
    the selectbox returns [None], and pressing "Record Sale" asks the server
    for the price of [None]; when the server finds no row for it, the run
    ends with the error "No price found for item: None", and nothing is
    written or committed. *)
Theorem sales_page_on_empty_inventory db clk tr :
  psycopg2_connect (ConnectionParameters "GlossonDB" "postgres" "feyo" "localhost" "5432")
  = Ok db ->
  user (StSidebarSelectbox "Menu" menu) = VStr "Sales Tracking" ->
  inventory db = [] ->
  user (StSelectbox "Select Item to Sell" (VList [])) = VNone ->
  truthy (user (StButton "Record Sale")) = true ->
  other "SELECT price FROM inventory WHERE item = %s" (Some (VTuple [VNone])) db
  = (Ok (Some []), db) ->
  run_script user psycopg2_connect main (World None clk tr) []
  = (Ok VNone,
     World (Some db) clk
       (tr ++ [ CursorExecute "SELECT item, quantity, price FROM inventory" None;
                CursorFetchall;
                CursorExecute "SELECT price FROM inventory WHERE item = %s"
                  (Some (VTuple [VNone]));
                CursorFetchall;
                StError [Lit "No price found for item: "; Field VNone ""] ]),
     [ StTitle "Pharmacy Management System"; StSidebarSelectbox "Menu" menu;
       StSubheader "Sales Tracking"; StWrite "Record sales transactions:";
       StSelectbox "Select Item to Sell" (VList []);
       StNumberInput "Quantity" [("value", "1"); ("min_value", "1")];
       StTextInput "Customer"; StButton "Record Sale" ]).
Proof.
  intros Hconnect Hmenu Hempty Hsel Hclick Hother.
  rewrite main_run. cbv zeta. rewrite Hconnect, Hmenu.
  cbn [eq_str String.eqb Ascii.eqb Bool.eqb]. rewrite sales_page_run. cbv zeta.
  rewrite Hclick, Hempty. cbn [fmap list_fmap]. rewrite Hsel.
  rewrite make_sale_of_None by done. by rewrite <- !app_assoc.
Qed.

(** X17: viewing the inventory on the inventory page, without adding:
    the selectbox "Item" is given the rows of the inventory (the triples,
    not the names); pressing "View Inventory" reads the table a second time
    and shows all its rows under the columns Item, Quantity, Price, or the
    text "No items in inventory." when the table is empty.  The page only
    reads: nothing is committed and the store is unchanged. *)
Theorem inventory_page_view db clk tr :
  psycopg2_connect (ConnectionParameters "GlossonDB" "postgres" "feyo" "localhost" "5432")
  = Ok db ->
  user (StSidebarSelectbox "Menu" menu) = VStr "Inventory Management" ->
  truthy (user (StButton "Add to Inventory")) = false ->
  truthy (user (StButton "View Inventory")) = true ->
  run_script user psycopg2_connect main (World None clk tr) []
  = (Ok VNone,
     World (Some db) clk
       (tr ++ [ CursorExecute "SELECT item, quantity, price FROM inventory" None;
                CursorFetchall;
                CursorExecute "SELECT item, quantity, price FROM inventory" None;
                CursorFetchall ]),
     [ StTitle "Pharmacy Management System"; StSidebarSelectbox "Menu" menu;
       StSubheader "Inventory Management"; StWrite "Add new items to the inventory:";
       StTextInput "Item"; StNumberInput "Quantity" [("value", "1"); ("min_value", "1")];
       StNumberInput "Price" [("value", "0.0"); ("step", "0.01")];
       StButton "Add to Inventory";
       StSelectbox "Item" (VList (triple <$> inventory db)); StButton "View Inventory";
       StWrite "Inventory Details:";
       match inventory db with
       | [] => StWrite "No items in inventory."
       | _ => StDataframe (VList (triple <$> inventory db)) ["Item"; "Quantity"; "Price"]
       end ]).
Proof.
  intros Hconnect Hmenu Hadd Hview.
  rewrite main_run. cbv zeta. rewrite Hconnect, Hmenu.
  cbn [eq_str String.eqb Ascii.eqb Bool.eqb]. rewrite inventory_page_run. cbv zeta.
  rewrite Hadd, inventory_listing_run. cbv zeta. rewrite Hview. reflexivity.
Qed.

(** X18: the pages after a failed connect: when [psycopg2.connect] fails
    with a [psycopg2.Error], the run shows the connection error once; the
    Home page is then shown in full, while the inventory page and the sales
    page end with the [AttributeError] of the first call of the gateway,
    whatever the user enters, and show no further message. *)
Theorem pages_after_failed_connect clk tr (msg : string) :
  psycopg2_connect (ConnectionParameters "GlossonDB" "postgres" "feyo" "localhost" "5432")
  = Raise (Psycopg2Error msg) ->
  let w1 := World None clk
              (tr ++ [StError [Lit "Error connecting to PostgreSQL database: ";
                               FieldExn (Psycopg2Error msg)]]) in
  (user (StSidebarSelectbox "Menu" menu) = VStr "Home" ->
   run_script user psycopg2_connect main (World None clk tr) []
   = (Ok VNone, w1,
      [ StTitle "Pharmacy Management System"; StSidebarSelectbox "Menu" menu;
        StSubheader "Home"; StWrite "Welcome to the Pharmacy Management System." ]))
  /\ (user (StSidebarSelectbox "Menu" menu) = VStr "Inventory Management"
      \/ user (StSidebarSelectbox "Menu" menu) = VStr "Sales Tracking" ->
      exists screen,
        run_script user psycopg2_connect main (World None clk tr) []
        = (Raise (AttributeError "'NoneType' object has no attribute 'cursor'"), w1, screen)).
Proof.
  intros Hconnect w1. split.
  - intros Hmenu. rewrite main_run. cbv zeta. rewrite Hconnect, Hmenu. reflexivity.
  - intros [Hmenu|Hmenu]; rewrite main_run; cbv zeta; rewrite Hconnect, Hmenu;
      cbn [is_psycopg2_Error eq_str String.eqb Ascii.eqb Bool.eqb].
    + unfold inventory_page. cbn [run_script].
      destruct (truthy (user (StButton "Add to Inventory"))); cbn [run_script].
      * rewrite run_without_connection by (done || constructor).
        by eexists.
      * rewrite run_without_connection by (done || constructor).
        by eexists.
    + unfold sales_page. cbn [run_script].
      rewrite run_without_connection by (done || constructor).
      by eexists.
Qed.

End Page.

(** * The properties at work *)

Lemma execute_query_never_raises_on_ledger :
  exists v c' evs,
    execute_query (H := pg reject_others) "DELETE FROM inventory" VNone
      (World (Some (aspirin_ledger 10)) 0 [])
    = (Ok v, World (Some c') 0 evs)
    /\ (v = VNone \/ exists rows, v = VList rows).
Proof.
  exact (execute_query_never_raises (H := pg reject_others) "DELETE FROM inventory" VNone
           (World (Some (aspirin_ledger 10)) 0 []) (aspirin_ledger 10)
           reject_others_errors eq_refl).
Defined.

Lemma reads_never_commit_on_ledger :
  exists o c' evs,
    run (H := pg reject_others) (SalesManager.get_item_price (VStr "aspirin"))
      (World (Some (aspirin_ledger 10)) 0 [])
    = (o, World (Some c') 0 evs)
    /\ (ConnectionCommit ∉ evs).
Proof.
  exact (reads_never_commit (H := pg reject_others) (VStr "aspirin")
           (World (Some (aspirin_ledger 10)) 0 []) (aspirin_ledger 10) eq_refl
           (SalesManager.get_item_price (VStr "aspirin")) (or_introl eq_refl)).
Defined.

Lemma lookups_on_closed_connection :
  run (H := closed_pg) (SalesManager.get_item_price (VStr "aspirin"))
    (World (Some (aspirin_ledger 10)) 0 [])
  = (Ok VNone,
     World (Some (aspirin_ledger 10)) 0
       [ CursorExecute "SELECT price FROM inventory WHERE item = %s"
           (Some (VTuple [VStr "aspirin"]));
         StError (query_error (Psycopg2Error "server closed the connection unexpectedly")) ])
  /\ run (H := closed_pg) (SalesManager.get_current_quantity (VStr "aspirin"))
       (World (Some (aspirin_ledger 10)) 0 [])
     = (Ok (VInt 0),
        World (Some (aspirin_ledger 10)) 0
          [ CursorExecute "SELECT quantity FROM inventory WHERE item = %s"
              (Some (VTuple [VStr "aspirin"]));
            StError (query_error (Psycopg2Error "server closed the connection unexpectedly")) ]).
Proof.
  exact (lookups_on_driver_error (H := closed_pg) (VStr "aspirin")
           (World (Some (aspirin_ledger 10)) 0 []) (aspirin_ledger 10) (aspirin_ledger 10)
           (aspirin_ledger 10) "server closed the connection unexpectedly"
           "server closed the connection unexpectedly" eq_refl eq_refl eq_refl).
Defined.

Lemma make_sale_on_closed_connection :
  run (H := closed_pg) (SalesManager.make_sale [(VStr "aspirin", VInt 1)] (VStr "Alice"))
    (World (Some (aspirin_ledger 10)) 0 [])
  = (Ok VNone,
     World (Some (aspirin_ledger 10)) 0
       [ CursorExecute "SELECT price FROM inventory WHERE item = %s"
           (Some (VTuple [VStr "aspirin"]));
         StError (query_error (Psycopg2Error "server closed the connection unexpectedly"));
         StError [Lit "No price found for item: "; Field (VStr "aspirin") ""] ]).
Proof.
  exact (price_lookup_error_is_unknown_item (H := closed_pg) (VStr "aspirin") (VInt 1)
           (VStr "Alice") [] (World (Some (aspirin_ledger 10)) 0 []) (aspirin_ledger 10)
           (aspirin_ledger 10) "server closed the connection unexpectedly" eq_refl eq_refl).
Defined.

Lemma make_sale_on_read_only_server :
  exists c' evs,
    run (H := read_only_pg) (SalesManager.make_sale [(VStr "aspirin", VInt 2)] (VStr "Alice"))
      (World (Some (aspirin_ledger 10)) 0 [])
    = (Ok VNone,
       World (Some c') 0
         ((price_lookup "aspirin" ++ quantity_lookup "aspirin") ++ evs
          ++ [StSuccess (sale_recorded (VDecimal (Decimal 400 (-2))))])).
Proof.
  destruct (make_sale_reports_success_whatever_the_writes_do (H := read_only_pg)
              [(VStr "aspirin", VInt 2)] (VStr "Alice") (aspirin_ledger 10) 0 []
              (VDecimal (Decimal 400 (-2)))
              (line_queries (InventoryRow "aspirin" 10 (Decimal 200 (-2))) ("aspirin", 2)
                 (VStr "Alice") (VDatetime 0))
              (World (Some (aspirin_ledger 10)) 0
                 (price_lookup "aspirin" ++ quantity_lookup "aspirin")))
    as (c' & evs & Hrun).
  - exact read_only_errors.
  - vm_compute. reflexivity.
  - exists c', evs. exact Hrun.
Defined.

Lemma add_item_without_connection :
  run (H := pg reject_others)
    (InventoryManager.add_item_to_inventory (VStr "ibuprofen") (VInt 4)
       (VDecimal (Decimal 350 (-2))))
    (World None 0 [])
  = (Raise (AttributeError "'NoneType' object has no attribute 'cursor'"), World None 0 []).
Proof.
  exact (operations_without_connection (H := pg reject_others) (World None 0 []) _ eq_refl
           (reaches_add (VStr "ibuprofen") (VInt 4) (VDecimal (Decimal 350 (-2))))).
Defined.

Lemma refused_connect_then_listing :
  DatabaseManager_init (C := database) refuses
    (ConnectionParameters "GlossonDB" "postgres" "feyo" "localhost" "5432") (World None 0 [])
  = (Ok tt,
     World None 0
       [StError [Lit "Error connecting to PostgreSQL database: ";
                 FieldExn (Psycopg2Error "could not connect to server: Connection refused")]])
  /\ bind (DatabaseManager_init (C := database) refuses
             (ConnectionParameters "GlossonDB" "postgres" "feyo" "localhost" "5432"))
       (fun _ => run (H := pg reject_others) InventoryManager.get_items_in_inventory)
       (World None 0 [])
     = (Raise (AttributeError "'NoneType' object has no attribute 'cursor'"),
        World None 0
          [StError [Lit "Error connecting to PostgreSQL database: ";
                    FieldExn (Psycopg2Error "could not connect to server: Connection refused")]]).
Proof.
  exact (failed_connect_then_operation (H := pg reject_others) refuses
           (ConnectionParameters "GlossonDB" "postgres" "feyo" "localhost" "5432")
           "could not connect to server: Connection refused" (World None 0 [])
           InventoryManager.get_items_in_inventory eq_refl reaches_list).
Defined.


Lemma sale_of_an_item_added_twice :
  exists db',
    conn (snd (run (H := pg reject_others)
                 (SalesManager.make_sale [(VStr "aspirin", VInt 5)] (VStr "Alice"))
                 (World (Some aspirin_added_twice) 0 []))) = Some db'
    /\ InventoryRow "aspirin" 5 (Decimal 200 (-2)) ∈ inventory db'
    /\ InventoryRow "aspirin" (-3) (Decimal 200 (-2)) ∈ inventory db'.
Proof.
  destruct (sale_debits_every_row_of_the_item reject_others aspirin_added_twice 0 [] "Alice"
              "aspirin" 5) as (db' & Hconn & Hrows).
  - reflexivity.
  - exists db'. split; [exact Hconn|]. split.
    + destruct (Hrows (InventoryRow "aspirin" 10 (Decimal 200 (-2)))) as [Hin _].
      * apply list_elem_of_here.
      * reflexivity.
      * exact Hin.
    + destruct (Hrows (InventoryRow "aspirin" 2 (Decimal 200 (-2)))) as [Hin _].
      * apply list_elem_of_further, list_elem_of_here.
      * reflexivity.
      * exact Hin.
Defined.



Lemma second_sale_after_the_first_on_ledger :
  exists db1 evs,
    run (H := pg reject_others)
      (let! _ := SalesManager.make_sale [(VStr "aspirin", VInt 3)] (VStr "Alice") in
       SalesManager.make_sale [(VStr "aspirin", VInt 4)] (VStr "Bob"))
      (World (Some (aspirin_ledger 5)) 0 [])
    = (Ok VNone,
       World (Some db1) 0
         (evs ++ [StSuccess (sale_recorded (VDecimal (Decimal 600 (-2))))]
              ++ price_lookup "aspirin" ++ quantity_lookup "aspirin"
              ++ [StError (insufficient_stock_error "aspirin" 2)]))
    /\ sales db1 = [SalesRow "aspirin" 3 (Decimal 600 (-2)) "Alice" 0]
    /\ first_row "aspirin" db1 = Some (InventoryRow "aspirin" 2 (Decimal 200 (-2))).
Proof.
  destruct (second_sale_sees_the_first reject_others (aspirin_ledger 5) 0 [] "aspirin"
              "Alice" "Bob" 3 4 (InventoryRow "aspirin" 5 (Decimal 200 (-2))))
    as (db1 & evs & Hrun & Hsales & Hrow).
  - reflexivity.
  - cbn. lia.
  - cbn. lia.
  - exists db1, evs. split; [exact Hrun|]. split; [exact Hsales|exact Hrow].
Defined.


Lemma sales_page_session :
  exists db' tr',
    run_script (H := pg reject_others)
      (session "Sales Tracking" (VStr "aspirin") "Alice" 2 ["Record Sale"])
      (connects_to (aspirin_ledger 10)) main (World None 0 []) []
    = (Ok VNone, World (Some db') 0 tr',
       [ StTitle "Pharmacy Management System"; StSidebarSelectbox "Menu" menu;
         StSubheader "Sales Tracking"; StWrite "Record sales transactions:";
         StSelectbox "Select Item to Sell" (VList [VStr "aspirin"]);
         StNumberInput "Quantity" [("value", "1"); ("min_value", "1")];
         StTextInput "Customer"; StButton "Record Sale" ])
    /\ last tr' = Some (StSuccess (sale_recorded (VDecimal (Decimal 400 (-2)))))
    /\ sales db' = [SalesRow "aspirin" 2 (Decimal 400 (-2)) "Alice" 0]
    /\ first_row "aspirin" db' = Some (InventoryRow "aspirin" 8 (Decimal 200 (-2))).
Proof.
  destruct (sales_page_records_a_sale reject_others
              (session "Sales Tracking" (VStr "aspirin") "Alice" 2 ["Record Sale"])
              (connects_to (aspirin_ledger 10)) (aspirin_ledger 10) 0 [] "aspirin" "Alice" 2
              (InventoryRow "aspirin" 10 (Decimal 200 (-2))))
    as (db' & tr' & Hrun & Hlast & Hsales & Hrow).
  - reflexivity.
  - reflexivity.
  - reflexivity.
  - reflexivity.
  - reflexivity.
  - reflexivity.
  - reflexivity.
  - cbn. lia.
  - exists db', tr'. split; [exact Hrun|]. split; [exact Hlast|].
    split; [exact Hsales|exact Hrow].
Defined.

Lemma sales_page_empty_inventory_session :
  run_script (H := pg null_is_no_item)
    (session "Sales Tracking" VNone "Alice" 1 ["Record Sale"])
    (connects_to (Database [] [])) main (World None 0 []) []
  = (Ok VNone,
     World (Some (Database [] [])) 0
       [ CursorExecute "SELECT item, quantity, price FROM inventory" None;
         CursorFetchall;
         CursorExecute "SELECT price FROM inventory WHERE item = %s" (Some (VTuple [VNone]));
         CursorFetchall;
         StError [Lit "No price found for item: "; Field VNone ""] ],
     [ StTitle "Pharmacy Management System"; StSidebarSelectbox "Menu" menu;
       StSubheader "Sales Tracking"; StWrite "Record sales transactions:";
       StSelectbox "Select Item to Sell" (VList []);
       StNumberInput "Quantity" [("value", "1"); ("min_value", "1")];
       StTextInput "Customer"; StButton "Record Sale" ]).
Proof.
  exact (sales_page_on_empty_inventory null_is_no_item
           (session "Sales Tracking" VNone "Alice" 1 ["Record Sale"])
           (connects_to (Database [] [])) (Database [] []) 0 []
           eq_refl eq_refl eq_refl eq_refl eq_refl eq_refl).
Defined.

Lemma inventory_page_view_session :
  run_script (H := pg reject_others)
    (session "Inventory Management" VNone "" 1 ["View Inventory"])
    (connects_to pharmacy_ledger) main (World None 0 []) []
  = (Ok VNone,
     World (Some pharmacy_ledger) 0
       [ CursorExecute "SELECT item, quantity, price FROM inventory" None;
         CursorFetchall;
         CursorExecute "SELECT item, quantity, price FROM inventory" None;
         CursorFetchall ],
     [ StTitle "Pharmacy Management System"; StSidebarSelectbox "Menu" menu;
       StSubheader "Inventory Management"; StWrite "Add new items to the inventory:";
       StTextInput "Item"; StNumberInput "Quantity" [("value", "1"); ("min_value", "1")];
       StNumberInput "Price" [("value", "0.0"); ("step", "0.01")];
       StButton "Add to Inventory";
       StSelectbox "Item" (VList (triple <$> inventory pharmacy_ledger));
       StButton "View Inventory";
       StWrite "Inventory Details:";
       StDataframe
         (VList [ VTuple [VStr "aspirin"; VInt 10; VDecimal (Decimal 200 (-2))];
                  VTuple [VStr "ibuprofen"; VInt 4; VDecimal (Decimal 350 (-2))] ])
         ["Item"; "Quantity"; "Price"] ]).
Proof.
  exact (inventory_page_view reject_others
           (session "Inventory Management" VNone "" 1 ["View Inventory"])
           (connects_to pharmacy_ledger) pharmacy_ledger 0 [] eq_refl eq_refl eq_refl eq_refl).
Defined.

Lemma pages_after_refused_connect :
  run_script (H := pg reject_others) (session "Home" VNone "" 1 []) refuses main
    (World None 0 []) []
  = (Ok VNone,
     World None 0
       [StError [Lit "Error connecting to PostgreSQL database: ";
                 FieldExn (Psycopg2Error "could not connect to server: Connection refused")]],
     [ StTitle "Pharmacy Management System"; StSidebarSelectbox "Menu" menu;
       StSubheader "Home"; StWrite "Welcome to the Pharmacy Management System." ])
  /\ exists screen,
       run_script (H := pg reject_others)
         (session "Sales Tracking" (VStr "aspirin") "Alice" 2 ["Record Sale"]) refuses main
         (World None 0 []) []
       = (Raise (AttributeError "'NoneType' object has no attribute 'cursor'"),
          World None 0
            [StError [Lit "Error connecting to PostgreSQL database: ";
                      FieldExn (Psycopg2Error "could not connect to server: Connection refused")]],
          screen).
Proof.
  split.
  - exact (proj1 (pages_after_failed_connect reject_others (session "Home" VNone "" 1 [])
                    refuses 0 [] "could not connect to server: Connection refused" eq_refl)
             eq_refl).
  - exact (proj2 (pages_after_failed_connect reject_others
                    (session "Sales Tracking" (VStr "aspirin") "Alice" 2 ["Record Sale"])
                    refuses 0 [] "could not connect to server: Connection refused" eq_refl)
             (or_intror eq_refl)).
Defined.

Lemma listing_on_closed_connection :
  run (H := closed_pg) InventoryManager.get_items_in_inventory
    (World (Some pharmacy_ledger) 0 [])
  = (Ok (VList []),
     World (Some pharmacy_ledger) 0
       [ CursorExecute "SELECT item, quantity, price FROM inventory" None;
         StError (query_error (Psycopg2Error "server closed the connection unexpectedly")) ]).
Proof.
  exact (listing_on_driver_error (H := closed_pg) (World (Some pharmacy_ledger) 0 [])
           pharmacy_ledger pharmacy_ledger "server closed the connection unexpectedly"
           eq_refl eq_refl).
Defined.
